(** * Registration drawer of the chat input: state machine and intent detection

    Shallow embedding of two React components:
    - [DrawerProvider] / [useDrawer]  (drawer-context.tsx): the drawer store;
    - [ChatInput]                     (chat-input.tsx): the registration flow.

    Time is a number of milliseconds ([Z]), as returned by [Date.now()].
    A pending [setTimeout] is represented by the instant at which it is due.
    React state written by an event handler is visible to the effects of the
    commit that follows the handler; each effect re-runs when one of its
    dependencies differs between the previous and the current render. *)

From Stdlib Require Import ZArith List Bool String Ascii Lia.
Import ListNotations.
Open Scope string_scope.
Open Scope Z_scope.

(* ===================================================================== *)
(** ** JavaScript string primitives used by the components *)
(* ===================================================================== *)

Module Js.

(** Strings are sequences of code units; the model covers the code units
    below 256 (U+0000 .. U+00FF), one [ascii] each. *)

Definition code (c : ascii) : Z := Z.of_nat (nat_of_ascii c).

(** [String.prototype.toLowerCase] on one code unit: A-Z and the Latin-1
    capitals U+00C0..U+00DE (U+00D7, the multiplication sign, excepted)
    move 32 up, everything else is kept. *)
Definition lowerChar (c : ascii) : ascii :=
  let n := code c in
  if ((65 <=? n) && (n <=? 90))
     || ((192 <=? n) && (n <=? 222) && negb (n =? 215))
  then ascii_of_nat (Z.to_nat (n + 32))
  else c.

Fixpoint toLowerCase (s : string) : string :=
  match s with
  | EmptyString => EmptyString
  | String c s' => String (lowerChar c) (toLowerCase s')
  end.

(** [haystack.includes(needle)] *)
Fixpoint includes (haystack needle : string) : bool :=
  String.prefix needle haystack ||
  match haystack with
  | EmptyString => false
  | String _ rest => includes rest needle
  end.

(** [\s]: white space and line terminators among the code units < 256. *)
Definition isSpace (c : ascii) : bool :=
  let n := code c in
  ((9 <=? n) && (n <=? 13)) || (n =? 32) || (n =? 160).

(** The fragment of regular expressions the component uses: a literal
    character, or a negated class followed by [+]. The pattern is anchored
    at both ends ([^ ... $]). *)
Inductive atom : Type :=
| Lit (c : ascii)
| NotPlus (excluded : ascii -> bool).

(** [[^...]+] followed by the continuation [k]: greedy, with backtracking. *)
Fixpoint matchPlus (excluded : ascii -> bool) (k : string -> bool)
         (s : string) : bool :=
  match s with
  | EmptyString => false
  | String c s' =>
      negb (excluded c) && (matchPlus excluded k s' || k s')
  end.

Fixpoint matchAtoms (p : list atom) : string -> bool :=
  match p with
  | [] => fun s => match s with EmptyString => true | _ => false end
  | Lit c :: p' =>
      fun s => match s with
               | String c' s' => Ascii.eqb c c' && matchAtoms p' s'
               | EmptyString => false
               end
  | NotPlus ex :: p' => matchPlus ex (matchAtoms p')
  end.

(** [regex.test(s)] for an anchored pattern. *)
Definition test (p : list atom) (s : string) : bool := matchAtoms p s.

End Js.

(* ===================================================================== *)
(** ** drawer-context.tsx: [DrawerProvider] *)
(* ===================================================================== *)

Inductive ChatStatus : Type := Ready | Streaming | Submitted | Error.

Module DrawerContext.

(** The four [useState] cells, the [useRef] cell, and the timers the
    provider owns. [autoCloseTimer] and [successResetTimer] are the
    [timeoutId]s of the two effects (cleared by their cleanups);
    [forceCloseTimers] are the 50 ms timeouts of [closeDrawer], which
    nothing ever clears. *)
Record State : Type := mkState {
  isOpen : bool;
  isWaitingForEmail : bool;
  isAutomaticOpen : bool;
  registrationSuccess : bool;
  lastCloseTimeRef : Z;
  autoCloseTimer : option Z;
  successResetTimer : option Z;
  forceCloseTimers : list Z
}.

Definition initial : State :=
  mkState false false false false 0 None None [].

Definition setIsOpen (v : bool) (d : State) : State :=
  mkState v (isWaitingForEmail d) (isAutomaticOpen d)
          (registrationSuccess d) (lastCloseTimeRef d)
          (autoCloseTimer d) (successResetTimer d) (forceCloseTimers d).

Definition setIsWaitingForEmail (v : bool) (d : State) : State :=
  mkState (isOpen d) v (isAutomaticOpen d)
          (registrationSuccess d) (lastCloseTimeRef d)
          (autoCloseTimer d) (successResetTimer d) (forceCloseTimers d).

Definition setIsAutomaticOpen (v : bool) (d : State) : State :=
  mkState (isOpen d) (isWaitingForEmail d) v
          (registrationSuccess d) (lastCloseTimeRef d)
          (autoCloseTimer d) (successResetTimer d) (forceCloseTimers d).

Definition setRegistrationSuccess (v : bool) (d : State) : State :=
  mkState (isOpen d) (isWaitingForEmail d) (isAutomaticOpen d)
          v (lastCloseTimeRef d)
          (autoCloseTimer d) (successResetTimer d) (forceCloseTimers d).

Definition setLastCloseTime (t : Z) (d : State) : State :=
  mkState (isOpen d) (isWaitingForEmail d) (isAutomaticOpen d)
          (registrationSuccess d) t
          (autoCloseTimer d) (successResetTimer d) (forceCloseTimers d).

Definition setAutoCloseTimer (t : option Z) (d : State) : State :=
  mkState (isOpen d) (isWaitingForEmail d) (isAutomaticOpen d)
          (registrationSuccess d) (lastCloseTimeRef d)
          t (successResetTimer d) (forceCloseTimers d).

Definition setSuccessResetTimer (t : option Z) (d : State) : State :=
  mkState (isOpen d) (isWaitingForEmail d) (isAutomaticOpen d)
          (registrationSuccess d) (lastCloseTimeRef d)
          (autoCloseTimer d) t (forceCloseTimers d).

Definition setForceCloseTimers (l : list Z) (d : State) : State :=
  mkState (isOpen d) (isWaitingForEmail d) (isAutomaticOpen d)
          (registrationSuccess d) (lastCloseTimeRef d)
          (autoCloseTimer d) (successResetTimer d) l.

(** [const isAIWriting = chatStatus === "streaming" || chatStatus === "submitted"];
    the prop is optional. *)
Definition isAIWriting (chatStatus : option ChatStatus) : bool :=
  match chatStatus with
  | Some Streaming | Some Submitted => true
  | _ => false
  end.

(** [openDrawer(isAutomatic = false)] *)
Definition openDrawer (busy : bool) (isAutomatic : bool) (now : Z)
           (d : State) : State :=
  let timeSinceClose := now - lastCloseTimeRef d in
  if timeSinceClose <? 2000 then d
  else if negb busy
       then setIsAutomaticOpen isAutomatic (setIsOpen true d)
       else d.

(** [closeDrawer()] *)
Definition closeDrawer (now : Z) (d : State) : State :=
  let d1 := setLastCloseTime now d in
  let d2 := setIsOpen false d1 in
  let d3 := setIsAutomaticOpen false d2 in
  let d4 := setIsWaitingForEmail false d3 in
  setForceCloseTimers (now + 50 :: forceCloseTimers d4) d4.

(** [toggleDrawer()] *)
Definition toggleDrawer (busy : bool) (now : Z) (d : State) : State :=
  if negb busy then
    if negb (isOpen d) then openDrawer busy false now d
    else closeDrawer now d
  else if isOpen d then closeDrawer now d
  else d.

(** Callback of the auto-close timeout (it has fired: the id is spent). *)
Definition autoCloseCallback (d : State) : State :=
  setIsAutomaticOpen false (setIsOpen false (setAutoCloseTimer None d)).

(** Callback of the success-reset timeout. *)
Definition successResetCallback (d : State) : State :=
  setRegistrationSuccess false (setSuccessResetTimer None d).

(** Callback of the 50 ms timeout of [closeDrawer]. *)
Definition forceCloseCallback (d : State) : State := setIsOpen false d.

(** First [useEffect], dependencies [[isOpen, isAutomaticOpen]]: when a
    dependency changed, the cleanup clears the timeout of the previous run
    and the effect arms a new one if the drawer is open automatically. *)
Definition autoCloseEffect (now : Z) (prev cur : State) : State :=
  if Bool.eqb (isOpen prev) (isOpen cur)
     && Bool.eqb (isAutomaticOpen prev) (isAutomaticOpen cur)
  then cur
  else if isOpen cur && isAutomaticOpen cur
       then setAutoCloseTimer (Some (now + 8000)) cur
       else setAutoCloseTimer None cur.

(** Second [useEffect], dependencies [[isOpen, registrationSuccess]]. *)
Definition successResetEffect (now : Z) (prev cur : State) : State :=
  if Bool.eqb (isOpen prev) (isOpen cur)
     && Bool.eqb (registrationSuccess prev) (registrationSuccess cur)
  then cur
  else if negb (isOpen cur) && registrationSuccess cur
       then setSuccessResetTimer (Some (now + 500)) cur
       else setSuccessResetTimer None cur.

(** The effects of one commit of the provider, in declaration order. *)
Definition effects (now : Z) (prev cur : State) : State :=
  successResetEffect now prev (autoCloseEffect now prev cur).

(** Whether the provider rendered again: one of its state cells changed. *)
Definition stateChanged (prev cur : State) : bool :=
  negb (Bool.eqb (isOpen prev) (isOpen cur)
        && Bool.eqb (isWaitingForEmail prev) (isWaitingForEmail cur)
        && Bool.eqb (isAutomaticOpen prev) (isAutomaticOpen cur)
        && Bool.eqb (registrationSuccess prev) (registrationSuccess cur)).

(** How the drawer was last opened, read off the two cells. *)
Inductive Origin : Type := Manual | Automatic | NoOrigin.

Definition origin (d : State) : Origin :=
  if isOpen d then
    if isAutomaticOpen d then Automatic else Manual
  else NoOrigin.

Definition originOfFlag (isAutomatic : bool) : Origin :=
  if isAutomatic then Automatic else Manual.

End DrawerContext.

(* ===================================================================== *)
(** ** chat-input.tsx: [ChatInput] *)
(* ===================================================================== *)

Record Message : Type := mkMessage { role : string; content : string }.

Module ChatInput.

Import DrawerContext.

(** What [useChatState()] hands to the component. *)
Record Chat : Type := mkChat {
  status : ChatStatus;
  messages : list Message;
  input : string
}.

(** The two [useRef] cells and the 10 s timeouts, which nothing clears. *)
Record Refs : Type := mkRefs {
  cooldownRef : bool;
  lastOpenTimeRef : Z;
  cooldownTimers : list Z
}.

(** Calls the component makes to its collaborators. *)
Record Calls : Type := mkCalls {
  pendingSaves : list string;   (* [saveEmail({ email })] not settled yet *)
  submitted : list string;      (* text passed on by [handleSubmit(e)] *)
  consoleErrors : nat;          (* [console.error] calls *)
  autoOpenRequests : list Z     (* instants of [openDrawer(true)] calls *)
}.

Record World : Type := mkWorld {
  drawer : State;
  chatStatus : option ChatStatus;   (* prop of [DrawerProvider] *)
  chat : Chat;
  refs : Refs;
  calls : Calls
}.

Definition setDrawer (d : State) (w : World) : World :=
  mkWorld d (chatStatus w) (chat w) (refs w) (calls w).
Definition setChat (c : Chat) (w : World) : World :=
  mkWorld (drawer w) (chatStatus w) c (refs w) (calls w).
Definition setRefs (r : Refs) (w : World) : World :=
  mkWorld (drawer w) (chatStatus w) (chat w) r (calls w).
Definition setCalls (c : Calls) (w : World) : World :=
  mkWorld (drawer w) (chatStatus w) (chat w) (refs w) c.

Definition busy (w : World) : bool := isAIWriting (chatStatus w).

(** [cooldownRef.current = true; lastOpenTimeRef.current = Date.now();
     setTimeout(() => { cooldownRef.current = false }, 10000)] *)
Definition armCooldown (now : Z) (w : World) : World :=
  setRefs (mkRefs true now (now + 10000 :: cooldownTimers (refs w))) w.

(** The chat's own [handleSubmit(e)]: an external collaborator, of which
    only the text it is given is recorded. *)
Definition handleSubmit (text : string) (w : World) : World :=
  let c := calls w in
  setCalls (mkCalls (pendingSaves c) (text :: submitted c)
                    (consoleErrors c) (autoOpenRequests c)) w.

(** [safeToggleDrawer()] *)
Definition safeToggleDrawer (now : Z) (w : World) : World :=
  if negb (busy w) then
    let w1 := setDrawer (toggleDrawer (busy w) now (drawer w)) w in
    if negb (isOpen (drawer w)) then armCooldown now w1 else w1
  else w.

(** [/^[^\s@]+@[^\s@]+\.[^\s@]+$/] *)
Definition spaceOrAt (c : ascii) : bool :=
  Js.isSpace c || Ascii.eqb c "@"%char.

Definition emailRegex : list Js.atom :=
  [Js.NotPlus spaceOrAt; Js.Lit "@"%char;
   Js.NotPlus spaceOrAt; Js.Lit "."%char; Js.NotPlus spaceOrAt].

(** [handleEmailSubmit(e)] up to its [await]: either the email is handed
    to [saveEmail] and the function suspends, or the normal submit runs. *)
Definition handleEmailSubmit (w : World) : World :=
  if isWaitingForEmail (drawer w) then
    if Js.test emailRegex (input (chat w)) then
      let c := calls w in
      setCalls (mkCalls (pendingSaves c ++ [input (chat w)]) (submitted c)
                        (consoleErrors c) (autoOpenRequests c)) w
    else handleSubmit (input (chat w)) w
  else handleSubmit (input (chat w)) w.

(** [handleInputChange({ target: { value } })] *)
Definition handleInputChange (value : string) (w : World) : World :=
  setChat (mkChat (status (chat w)) (messages (chat w)) value) w.

(** The rest of [handleEmailSubmit] once [saveEmail] has settled; [email]
    is the input captured by the suspended call. *)
Definition handleEmailSubmitResume (email : string) (ok : bool) (now : Z)
           (w : World) : World :=
  if ok then
    let w1 := setDrawer (setRegistrationSuccess true (drawer w)) w in
    let w2 := setDrawer (closeDrawer now (drawer w1)) w1 in
    let w3 := setDrawer (setIsWaitingForEmail false (drawer w2)) w2 in
    let w4 := handleInputChange "" w3 in
    armCooldown now w4
  else
    let c := calls w in
    let w1 := setCalls (mkCalls (pendingSaves c) (submitted c)
                                (S (consoleErrors c)) (autoOpenRequests c)) w in
    handleSubmit email w1.

(** [handleRegistrationConfirm()], and [handleYesClick] of the drawer
    content, which performs the same write before calling it. *)
Definition handleRegistrationConfirm (w : World) : World :=
  setDrawer (setIsWaitingForEmail true (drawer w)) w.

Definition registrationKeywords : list string :=
  ["register"; "signup"; "sign up"; "subscribe"; "account";
   "create account"; "inscrire"; "m'inscrire"; "inscription"].

(** [messages[messages.length - 1]] ([undefined] on an empty array) *)
Definition lastMessage (msgs : list Message) : option Message :=
  List.last (List.map Some msgs) None.

Definition hasIntent (content : string) : bool :=
  existsb (fun keyword => Js.includes content keyword) registrationKeywords.

(** [checkForRegistrationIntent()]: [true] when it calls
    [openDrawer(true)]. *)
Definition checkForRegistrationIntent (cooldown isOpen isAIWriting : bool)
           (msgs : list Message) : bool :=
  if cooldown || isOpen then false
  else
    match lastMessage msgs with
    | Some lastMsg =>
        if String.eqb (role lastMsg) "user" then
          let content := Js.toLowerCase (content lastMsg) in
          hasIntent content && negb isAIWriting && negb isOpen
        else false
    | None => false
    end.

(** Body of the intent-detection effect. *)
Definition intentEffect (st : ChatStatus) (cooldown isOpen isAIWriting : bool)
           (msgs : list Message) : bool :=
  match st with
  | Ready | Error =>
      checkForRegistrationIntent cooldown isOpen isAIWriting msgs
  | Streaming | Submitted => false
  end.

End ChatInput.

(* ===================================================================== *)
(** ** Events, effects and commits *)
(* ===================================================================== *)

Module Runtime.

Import DrawerContext ChatInput.

(** [useEffect(..., [isOpen])] of [ChatInput]: a closed drawer arms the
    cooldown. *)
Definition cooldownEffect (now : Z) (prev cur : World) : World :=
  if Bool.eqb (isOpen (drawer prev)) (isOpen (drawer cur)) then cur
  else if negb (isOpen (drawer cur)) then armCooldown now cur else cur.

(** Dependencies of the intent effect:
    [[messages, status, isAIWriting, isOpen, openDrawer, lastOpenTimeRef]].
    [openDrawer] is a new closure whenever the provider renders. *)
Definition intentDepsChanged (chatChanged : bool) (prev cur : World) : bool :=
  chatChanged || stateChanged (drawer prev) (drawer cur).

Definition logAutoOpen (now : Z) (w : World) : World :=
  let c := calls w in
  setCalls (mkCalls (pendingSaves c) (submitted c) (consoleErrors c)
                    (now :: autoOpenRequests c)) w.

(** Whether the intent effect runs in this commit and calls
    [openDrawer(true)]; it reads the cooldown after the effect declared
    before it has run. *)
Definition intentRuns (now : Z) (chatChanged : bool) (prev cur : World)
  : bool :=
  intentDepsChanged chatChanged prev cur
  && intentEffect (status (chat cur))
                  (cooldownRef (refs (cooldownEffect now prev cur)))
                  (isOpen (drawer cur)) (busy cur) (messages (chat cur)).

(** One commit: the effects of [ChatInput] (the child) run first, in
    declaration order, then those of the provider; all of them read the
    values of the render being committed. A state write made by an effect
    is applied once the effects have run. *)
Definition commitRound (now : Z) (chatChanged : bool) (prev cur : World)
  : World :=
  let w1 := cooldownEffect now prev cur in
  let w2 := setDrawer (effects now (drawer prev) (drawer cur)) w1 in
  if intentRuns now chatChanged prev cur
  then logAutoOpen now (setDrawer (openDrawer (busy cur) true now (drawer w2)) w2)
  else w2.

(** A handler runs to completion, then React commits; a write made by an
    effect of the first commit leads to a second one. *)
Definition commit (now : Z) (chatChanged : bool) (prev cur : World) : World :=
  let w1 := commitRound now chatChanged prev cur in
  commitRound now false cur w1.

(** What can happen, each at an instant [now]: a call of one of the
    functions of the context; a click on the toggle button; a click on
    "Oui"; typing; a submission while the assistant is idle; the settling
    of a pending [saveEmail]; a change of the chat signal or a new render
    of the parents; a timeout running its callback. (A click on "Non" is
    two [CloseDrawer], 100 ms apart.) *)
Inductive Event : Type :=
| OpenDrawer (isAutomatic : bool)
| CloseDrawer
| ToggleDrawer
| SetIsWaitingForEmail (v : bool)
| SetRegistrationSuccess (v : bool)
| SafeToggleDrawer
| ConfirmRegistration
| InputChange (value : string)
| EmailSubmit
| SaveEmailSettled (email : string) (ok : bool)
| ChatUpdate (cs : option ChatStatus) (st : ChatStatus) (msgs : list Message)
| AutoCloseFire
| SuccessResetFire
| ForceCloseFire (due : Z)
| CooldownFire (due : Z).

(** Removes the first occurrence of [x]. *)
Fixpoint removeOne {A : Type} (eqb : A -> A -> bool) (x : A) (l : list A)
  : list A :=
  match l with
  | [] => []
  | y :: l' => if eqb x y then l' else y :: removeOne eqb x l'
  end.

Definition memZ (x : Z) (l : list Z) : bool := existsb (Z.eqb x) l.
Definition memStr (x : string) (l : list string) : bool :=
  existsb (String.eqb x) l.

(** A timeout runs its callback once, no earlier than it is due. *)
Definition dueNow (now : Z) (t : option Z) : bool :=
  match t with Some due => due <=? now | None => false end.

(** What the handler of an event writes. *)
Definition handle (now : Z) (e : Event) (w : World) : World :=
  match e with
  | OpenDrawer a => setDrawer (openDrawer (busy w) a now (drawer w)) w
  | CloseDrawer => setDrawer (closeDrawer now (drawer w)) w
  | ToggleDrawer => setDrawer (toggleDrawer (busy w) now (drawer w)) w
  | SetIsWaitingForEmail v => setDrawer (setIsWaitingForEmail v (drawer w)) w
  | SetRegistrationSuccess v =>
      setDrawer (setRegistrationSuccess v (drawer w)) w
  | SafeToggleDrawer => safeToggleDrawer now w
  | ConfirmRegistration => handleRegistrationConfirm w
  | InputChange v => handleInputChange v w
  | EmailSubmit => handleEmailSubmit w
  | SaveEmailSettled email ok =>
      let c := calls w in
      if memStr email (pendingSaves c) then
        handleEmailSubmitResume email ok now
          (setCalls (mkCalls (removeOne String.eqb email (pendingSaves c))
                             (submitted c) (consoleErrors c)
                             (autoOpenRequests c)) w)
      else w
  | ChatUpdate cs st msgs =>
      mkWorld (drawer w) cs (mkChat st msgs (input (chat w)))
              (refs w) (calls w)
  | AutoCloseFire =>
      if dueNow now (autoCloseTimer (drawer w))
      then setDrawer (autoCloseCallback (drawer w)) w
      else w
  | SuccessResetFire =>
      if dueNow now (successResetTimer (drawer w))
      then setDrawer (successResetCallback (drawer w)) w
      else w
  | ForceCloseFire due =>
      let d := drawer w in
      if memZ due (forceCloseTimers d) && (due <=? now)
      then setDrawer (forceCloseCallback
                        (setForceCloseTimers
                           (removeOne Z.eqb due (forceCloseTimers d)) d)) w
      else w
  | CooldownFire due =>
      let r := refs w in
      if memZ due (cooldownTimers r) && (due <=? now)
      then setRefs (mkRefs false (lastOpenTimeRef r)
                           (removeOne Z.eqb due (cooldownTimers r))) w
      else w
  end.

Definition isChatUpdate (e : Event) : bool :=
  match e with ChatUpdate _ _ _ => true | _ => false end.

Definition step (now : Z) (e : Event) (w : World) : World :=
  commit now (isChatUpdate e) w (handle now e w).

Fixpoint run (tr : list (Z * Event)) (w : World) : World :=
  match tr with
  | [] => w
  | (now, e) :: tr' => run tr' (step now e w)
  end.

(** Mounting: initial state cells, then the first commit, in which every
    effect runs whatever its dependencies. *)
Definition initialWorld (cs : option ChatStatus) (c : Chat) : World :=
  mkWorld initial cs c (mkRefs false 0 []) (mkCalls [] [] 0 []).

Definition mountEffects (now : Z) (w0 : World) : World :=
  let w1 := if negb (isOpen (drawer w0)) then armCooldown now w0 else w0 in
  let wantsOpen :=
    intentEffect (status (chat w0)) (cooldownRef (refs w1))
                 (isOpen (drawer w0)) (busy w0) (messages (chat w0)) in
  if wantsOpen
  then logAutoOpen now (setDrawer (openDrawer (busy w0) true now (drawer w1)) w1)
  else w1.

Definition mount (now : Z) (cs : option ChatStatus) (c : Chat) : World :=
  let w0 := initialWorld cs c in
  commitRound now false w0 (mountEffects now w0).

End Runtime.

(* ===================================================================== *)
(** ** custom-drawer.tsx, and what [ChatInput] renders *)
(* ===================================================================== *)

Module CustomDrawer.

Import DrawerContext ChatInput Runtime.

(** The three contents of [AskRegistrationDrawerContent], in the order of
    its [if]s: the thank-you message, the email prompt, the question with
    its "Oui" and "Non" buttons. *)
Inductive Content : Type := ThankYou | EmailPrompt | Question.

Definition AskRegistrationDrawerContent (d : State) : Content :=
  if registrationSuccess d then ThankYou
  else if isWaitingForEmail d then EmailPrompt
  else Question.

(** [CustomDrawer]: [if (!isOpen) return null], else the children. *)
Definition CustomDrawer {A : Type} (isOpen : bool) (children : A) : option A :=
  if negb isOpen then None else Some children.

(** [const isLoading = status === "streaming" || status === "submitted"] *)
Definition isLoading (st : ChatStatus) : bool :=
  match st with
  | Streaming | Submitted => true
  | Ready | Error => false
  end.

(** [const drawerIsVisible = isOpen && !isAIWriting] *)
Definition drawerIsVisible (w : World) : bool :=
  isOpen (drawer w) && negb (busy w).

(** What is on the screen above the input. *)
Definition rendered (w : World) : option Content :=
  CustomDrawer (drawerIsVisible w) (AskRegistrationDrawerContent (drawer w)).

(** What a click or a key press leads to. *)
Inductive Outcome : Type :=
| Stopped                 (* [stop()] *)
| Ignored                 (* the handler does nothing *)
| Handled (w : World).

(** [disabled={!isLoading && input.length === 0}] of the send button *)
Definition sendButtonDisabled (w : World) : bool :=
  negb (isLoading (status (chat w)))
  && Nat.eqb (String.length (input (chat w))) 0.

(** [onClick] of the send button *)
Definition sendButtonOnClick (w : World) : Outcome :=
  if isLoading (status (chat w)) then Stopped
  else if isWaitingForEmail (drawer w) then Handled (handleEmailSubmit w)
  else Handled (handleSubmit (input (chat w)) w).

(** [onKeyDown] of the input *)
Definition inputOnKeyDown (key : string) (shiftKey : bool) (w : World)
  : Outcome :=
  if String.eqb key "Enter" && negb shiftKey then
    if isWaitingForEmail (drawer w) then Handled (handleEmailSubmit w)
    else Handled (handleSubmit (input (chat w)) w)
  else Ignored.

(** The events the rendered interface can produce: the "Oui" button exists
    only while the question is on the screen, the input is disabled while
    the chat is loading, and nothing calls the setters or [openDrawer] from
    outside. Escape, the timeouts, the chat and the toggle button are always
    there. *)
Definition uiEnabled (w : World) (e : Event) : bool :=
  match e with
  | ConfirmRegistration =>
      match rendered w with Some Question => true | _ => false end
  | InputChange _ | EmailSubmit => negb (isLoading (status (chat w)))
  | OpenDrawer _ | ToggleDrawer
  | SetIsWaitingForEmail _ | SetRegistrationSuccess _ => false
  | CloseDrawer | SafeToggleDrawer | SaveEmailSettled _ _ | ChatUpdate _ _ _
  | AutoCloseFire | SuccessResetFire | ForceCloseFire _ | CooldownFire _ => true
  end.

Fixpoint runUi (tr : list (Z * Event)) (w : World) : option World :=
  match tr with
  | [] => Some w
  | (now, e) :: tr' =>
      if uiEnabled w e then runUi tr' (step now e w) else None
  end.

End CustomDrawer.

(* ===================================================================== *)
(** ** Predicates used in the statements *)
(* ===================================================================== *)

Import DrawerContext ChatInput Runtime CustomDrawer.

Definition isSome {A : Type} (o : option A) : bool :=
  match o with Some _ => true | None => false end.

(** The timeout of each provider effect is pending exactly while the
    condition of the effect holds. *)
Definition timersOk (d : State) : Prop :=
  isSome (autoCloseTimer d) = isOpen d && isAutomaticOpen d /\
  isSome (successResetTimer d) = negb (isOpen d) && registrationSuccess d.

(** What a handler may do to the two effect timeouts: leave them alone, or
    spend one in a callback that also changes a dependency of its effect. *)
Definition carried (prev cur : State) : Prop :=
  (isOpen prev = isOpen cur -> isAutomaticOpen prev = isAutomaticOpen cur ->
   autoCloseTimer cur = autoCloseTimer prev) /\
  (isOpen prev = isOpen cur -> registrationSuccess prev = registrationSuccess cur ->
   successResetTimer cur = successResetTimer prev).

(** The open, close and toggle operations of the store, together with what
    happens around them without any setter being called: timeouts firing
    and the chat signal changing. *)
Definition drawerOp (e : Event) : bool :=
  match e with
  | OpenDrawer _ | CloseDrawer | ToggleDrawer | SafeToggleDrawer => true
  | ChatUpdate _ _ _ => true
  | AutoCloseFire | SuccessResetFire | ForceCloseFire _ | CooldownFire _ => true
  | _ => false
  end.

Definition eventsAll (P : Event -> bool) (tr : list (Z * Event)) : bool :=
  forallb (fun p => P (snd p)) tr.

Definition timesWithin (lo hi : Z) (tr : list (Z * Event)) : bool :=
  forallb (fun p => (lo <=? fst p) && (fst p <? hi)) tr.

(** Every event but a direct call of [openDrawer(true)], which the
    components make from the intent effect only. *)
Definition uiEvent (e : Event) : bool :=
  match e with OpenDrawer true => false | _ => true end.

(** During the first cooldown: the flag is set, no pending timeout can clear
    it before [bound], and intent detection has asked for nothing. *)
Definition coolInv (bound : Z) (w : World) : Prop :=
  cooldownRef (refs w) = true /\
  Forall (fun due => bound <= due) (cooldownTimers (refs w)) /\
  autoOpenRequests (calls w) = [].

(** Two store states with the same four state cells. *)
Definition flagsEq (d1 d2 : State) : Prop :=
  isOpen d1 = isOpen d2 /\ isWaitingForEmail d1 = isWaitingForEmail d2 /\
  isAutomaticOpen d1 = isAutomaticOpen d2 /\
  registrationSuccess d1 = registrationSuccess d2.

(** The condition under which the success-reset effect keeps a timeout. *)
Definition successResetPending (d : State) : bool :=
  negb (isOpen d) && registrationSuccess d.

(** Intent detection in the words of the specification: the turn is
    complete, no cooldown is active, the drawer is closed, the assistant is
    idle, and the most recent message is a user message whose lower-cased
    content contains one of the keywords. *)
Definition containsKeyword (text : string) : Prop :=
  exists keyword pre post,
    In keyword registrationKeywords /\
    text = (pre ++ keyword ++ post)%string.

Definition intentSpec (st : ChatStatus) (cooldown isOpen isAIWriting : bool)
           (msgs : list Message) : Prop :=
  (st = Ready \/ st = Error) /\
  cooldown = false /\ isOpen = false /\ isAIWriting = false /\
  exists earlier lastMsg,
    msgs = (earlier ++ [lastMsg])%list /\ role lastMsg = "user" /\
    containsKeyword (Js.toLowerCase (content lastMsg)).

(** The email pattern in words: a local part, [@], and a domain with a dot
    in it, none of them empty or containing white space or [@]. *)
Fixpoint allChars (p : ascii -> bool) (s : string) : bool :=
  match s with
  | EmptyString => true
  | String c s' => p c && allChars p s'
  end.

Definition emailPart (s : string) : Prop :=
  s <> EmptyString /\ allChars (fun c => negb (spaceOrAt c)) s = true.

Definition emailShape (s : string) : Prop :=
  exists localPart domain tld,
    emailPart localPart /\ emailPart domain /\ emailPart tld /\
    s = (localPart ++ "@" ++ domain ++ "." ++ tld)%string.

(** Two worlds that differ at most in [lastOpenTimeRef]. *)
Definition sameButLastOpenTime (w1 w2 : World) : Prop :=
  drawer w1 = drawer w2 /\ chatStatus w1 = chatStatus w2 /\
  chat w1 = chat w2 /\ calls w1 = calls w2 /\
  cooldownRef (refs w1) = cooldownRef (refs w2) /\
  cooldownTimers (refs w1) = cooldownTimers (refs w2).

(** The drawer is closed and its last close is not older than [since]. *)
Definition closedSince (since : Z) (w : World) : Prop :=
  isOpen (drawer w) = false /\ since <= lastCloseTimeRef (drawer w).

Fixpoint countChar (c : ascii) (s : string) : nat :=
  match s with
  | EmptyString => 0%nat
  | String c' s' => ((if Ascii.eqb c c' then 1 else 0) + countChar c s')%nat
  end.

(** The keywords that are not themselves inside a longer keyword. *)
Definition shortKeywords : list string :=
  ["register"; "signup"; "sign up"; "subscribe"; "account";
   "inscrire"; "inscription"].

(** The toggle button pressed to open, and pressed again to close 1500 ms
    later, while the timeout armed by the mount is still pending. *)
Definition staleTimerTrace : list (Z * Event) :=
  [(108000, SafeToggleDrawer); (109500, SafeToggleDrawer)].

(** Sample data for the concrete runs below. *)
Definition sampleChat : Chat := mkChat Ready [] "".

Definition signUpMessage : Message := mkMessage "user" "I'd like to sign up".

(** A session mounted at instant 100000 whose first cooldown has lapsed. *)
Definition idleWorld : World :=
  run [(110000, CooldownFire 110000)] (mount 100000 (Some Ready) sampleChat).

(** An automatic open that nobody touches, up to its auto-close. *)
Definition untouchedTrace : list (Z * Event) :=
  [(110000, CooldownFire 110000);
   (120000, ChatUpdate (Some Ready) Ready [signUpMessage]);
   (128000, AutoCloseFire)].

(** An automatic open, a click on "Oui", an email typed while the drawer
    closes by itself, and the email sent twelve seconds later. *)
Definition lateEmailTrace : list (Z * Event) :=
  [(110000, CooldownFire 110000);
   (120000, ChatUpdate (Some Ready) Ready [signUpMessage]);
   (121000, ConfirmRegistration);
   (125000, InputChange "a@b.co");
   (128000, AutoCloseFire);
   (140000, EmailSubmit);
   (140200, SaveEmailSettled "a@b.co" true)].

(* ===================================================================== *)
(** ** Basic facts *)
(* ===================================================================== *)

Ltac break_if :=
  match goal with
  | |- context [if ?b then _ else _] =>
      let E := fresh "E" in destruct b eqn:E
  | |- context [match ?o with Some _ => _ | None => _ end] =>
      let E := fresh "E" in destruct o eqn:E
  end.

Lemma isAIWriting_true (cs : option ChatStatus) :
  isAIWriting cs = true <-> cs = Some Streaming \/ cs = Some Submitted.
Proof.
  destruct cs as [[]|]; simpl; split; intros H;
    try discriminate; auto; destruct H; discriminate.
Qed.

Lemma setDrawer_same (w : World) : setDrawer (drawer w) w = w.
Proof. destruct w; reflexivity. Qed.

Lemma effects_same (now : Z) (d : State) : effects now d d = d.
Proof.
  unfold effects, autoCloseEffect, successResetEffect.
  now rewrite !Bool.eqb_reflx.
Qed.

Lemma stateChanged_same (d : State) : stateChanged d d = false.
Proof. unfold stateChanged. now rewrite !Bool.eqb_reflx. Qed.

Lemma commitRound_same (now : Z) (w : World) : commitRound now false w w = w.
Proof.
  unfold commitRound, intentRuns, cooldownEffect, intentDepsChanged.
  rewrite Bool.eqb_reflx, stateChanged_same, effects_same. simpl.
  apply setDrawer_same.
Qed.

Lemma commit_same (now : Z) (w : World) : commit now false w w = w.
Proof. unfold commit. now rewrite !commitRound_same. Qed.

Lemma openDrawer_blocked (b a : bool) (now : Z) (d : State) :
  b = true \/ now - lastCloseTimeRef d < 2000 -> openDrawer b a now d = d.
Proof.
  unfold openDrawer. intros [-> | H].
  - now destruct (_ <? _).
  - apply Z.ltb_lt in H. now rewrite H.
Qed.

Lemma openDrawer_accepted (a : bool) (now : Z) (d : State) :
  2000 <= now - lastCloseTimeRef d ->
  openDrawer false a now d = setIsAutomaticOpen a (setIsOpen true d).
Proof.
  unfold openDrawer. intros H.
  apply Z.ltb_ge in H. now rewrite H.
Qed.

Lemma checkForRegistrationIntent_open (cd b : bool) (msgs : list Message) :
  checkForRegistrationIntent cd true b msgs = false.
Proof.
  unfold checkForRegistrationIntent. now rewrite Bool.orb_true_r.
Qed.

Lemma intentEffect_open (st : ChatStatus) (cd b : bool) (msgs : list Message) :
  intentEffect st cd true b msgs = false.
Proof.
  destruct st; simpl; auto using checkForRegistrationIntent_open.
Qed.

Lemma intentEffect_cooldown (st : ChatStatus) (o b : bool) (msgs : list Message) :
  intentEffect st true o b msgs = false.
Proof. destruct st; reflexivity. Qed.

Lemma intentEffect_busy (st : ChatStatus) (cd o : bool) (msgs : list Message) :
  intentEffect st cd o true msgs = false.
Proof.
  destruct st; simpl; auto; unfold checkForRegistrationIntent;
    destruct (cd || o); auto; destruct (lastMessage msgs); auto;
    destruct (String.eqb _ _); auto; now rewrite Bool.andb_false_r.
Qed.

(** *** What a commit changes *)

Lemma effects_flags (now : Z) (prev cur : State) :
  flagsEq (effects now prev cur) cur /\
  lastCloseTimeRef (effects now prev cur) = lastCloseTimeRef cur /\
  forceCloseTimers (effects now prev cur) = forceCloseTimers cur.
Proof.
  unfold flagsEq, effects, autoCloseEffect, successResetEffect.
  repeat break_if; simpl; auto 10.
Qed.

Lemma effects_prev_flags (now : Z) (p1 p2 cur : State) :
  flagsEq p1 p2 -> effects now p1 cur = effects now p2 cur.
Proof.
  intros (H1 & _ & H3 & H4).
  unfold effects, autoCloseEffect, successResetEffect.
  now rewrite H1, H3, H4.
Qed.

Lemma effects_stable (now : Z) (prev cur : State) :
  flagsEq prev cur -> effects now prev cur = cur.
Proof.
  intros (H1 & _ & H3 & H4).
  unfold effects, autoCloseEffect, successResetEffect.
  now rewrite H1, H3, H4, !Bool.eqb_reflx.
Qed.

Lemma stateChanged_flags (d1 d2 : State) :
  flagsEq d1 d2 -> stateChanged d1 d2 = false.
Proof.
  intros (H1 & H2 & H3 & H4). unfold stateChanged.
  now rewrite H1, H2, H3, H4, !Bool.eqb_reflx.
Qed.

Lemma flagsEq_sym (d1 d2 : State) : flagsEq d1 d2 -> flagsEq d2 d1.
Proof. unfold flagsEq. intuition congruence. Qed.

Lemma cooldownEffect_frame (now : Z) (prev cur : World) :
  drawer (cooldownEffect now prev cur) = drawer cur /\
  chat (cooldownEffect now prev cur) = chat cur /\
  chatStatus (cooldownEffect now prev cur) = chatStatus cur /\
  calls (cooldownEffect now prev cur) = calls cur.
Proof. unfold cooldownEffect. repeat break_if; auto. Qed.

Lemma commitRound_drawer (now : Z) (cc : bool) (prev cur : World) :
  drawer (commitRound now cc prev cur) =
  let d1 := effects now (drawer prev) (drawer cur) in
  if intentRuns now cc prev cur
  then openDrawer (busy cur) true now d1 else d1.
Proof. unfold commitRound. break_if; reflexivity. Qed.

Lemma commitRound_refs (now : Z) (cc : bool) (prev cur : World) :
  refs (commitRound now cc prev cur) = refs (cooldownEffect now prev cur).
Proof. unfold commitRound. break_if; reflexivity. Qed.

Lemma commitRound_chat (now : Z) (cc : bool) (prev cur : World) :
  chat (commitRound now cc prev cur) = chat cur /\
  chatStatus (commitRound now cc prev cur) = chatStatus cur.
Proof.
  destruct (cooldownEffect_frame now prev cur) as (_ & H2 & H3 & _).
  unfold commitRound. break_if; simpl; auto.
Qed.

Lemma commitRound_calls (now : Z) (cc : bool) (prev cur : World) :
  calls (commitRound now cc prev cur) =
  if intentRuns now cc prev cur
  then mkCalls (pendingSaves (calls cur)) (submitted (calls cur))
               (consoleErrors (calls cur)) (now :: autoOpenRequests (calls cur))
  else calls cur.
Proof.
  destruct (cooldownEffect_frame now prev cur) as (_ & _ & _ & H4).
  unfold commitRound. break_if; simpl; now rewrite H4.
Qed.

(** An open request made by the intent effect either changes nothing or
    opens the drawer; either way the effect stays quiet in the next commit. *)
Lemma intentRuns_second (now : Z) (cc : bool) (prev cur : World) :
  intentRuns now false cur (commitRound now cc prev cur) = false.
Proof.
  unfold intentRuns at 1. unfold intentDepsChanged. simpl.
  rewrite commitRound_drawer. cbv zeta.
  destruct (effects_flags now (drawer prev) (drawer cur)) as (Hf & _ & _).
  destruct (intentRuns now cc prev cur) eqn:Hr.
  - unfold openDrawer.
    destruct (_ <? 2000).
    + now rewrite stateChanged_flags by now apply flagsEq_sym.
    + destruct (negb (busy cur)).
      * simpl. now rewrite intentEffect_open, Bool.andb_false_r.
      * now rewrite stateChanged_flags by now apply flagsEq_sym.
  - now rewrite stateChanged_flags by now apply flagsEq_sym.
Qed.

Lemma intentRuns_closed_idle (now : Z) (cc : bool) (prev cur : World) :
  intentRuns now cc prev cur = true ->
  isOpen (drawer cur) = false /\ busy cur = false /\
  cooldownRef (refs (cooldownEffect now prev cur)) = false.
Proof.
  unfold intentRuns. intros H.
  apply Bool.andb_true_iff in H as [_ H].
  destruct (isOpen (drawer cur)); [now rewrite intentEffect_open in H|].
  destruct (busy cur); [now rewrite intentEffect_busy in H|].
  destruct (cooldownRef _); [now rewrite intentEffect_cooldown in H|].
  auto.
Qed.

Lemma cooldownEffect_second (now : Z) (cc : bool) (prev cur : World) :
  refs (cooldownEffect now cur (commitRound now cc prev cur)) =
  refs (cooldownEffect now prev cur).
Proof.
  unfold cooldownEffect at 1. rewrite commitRound_drawer. cbv zeta.
  destruct (effects_flags now (drawer prev) (drawer cur)) as ((Hf & _) & _ & _).
  destruct (intentRuns now cc prev cur) eqn:Hr.
  - apply intentRuns_closed_idle in Hr as (Ho & Hb & _).
    rewrite Hb, Ho. unfold openDrawer.
    destruct (_ <? 2000); simpl.
    + rewrite Hf, Ho. simpl. apply commitRound_refs.
    + apply commitRound_refs.
  - rewrite Hf, Bool.eqb_reflx. apply commitRound_refs.
Qed.

Lemma commit_drawer (now : Z) (cc : bool) (prev cur : World) :
  drawer (commit now cc prev cur) =
  let d1 := effects now (drawer prev) (drawer cur) in
  if intentRuns now cc prev cur
  then effects now d1 (openDrawer false true now d1) else d1.
Proof.
  unfold commit. rewrite commitRound_drawer, intentRuns_second. cbv zeta.
  rewrite commitRound_drawer. cbv zeta.
  destruct (effects_flags now (drawer prev) (drawer cur)) as (Hf & _ & _).
  destruct (intentRuns now cc prev cur) eqn:Hr.
  - apply intentRuns_closed_idle in Hr as (_ & -> & _).
    now apply effects_prev_flags, flagsEq_sym.
  - now apply effects_stable, flagsEq_sym.
Qed.

Lemma commit_refs (now : Z) (cc : bool) (prev cur : World) :
  refs (commit now cc prev cur) = refs (cooldownEffect now prev cur).
Proof.
  unfold commit. rewrite commitRound_refs. apply cooldownEffect_second.
Qed.

Lemma commit_chat (now : Z) (cc : bool) (prev cur : World) :
  chat (commit now cc prev cur) = chat cur /\
  chatStatus (commit now cc prev cur) = chatStatus cur.
Proof.
  unfold commit.
  destruct (commitRound_chat now false cur (commitRound now cc prev cur)) as [-> ->].
  apply commitRound_chat.
Qed.

Lemma commit_calls (now : Z) (cc : bool) (prev cur : World) :
  calls (commit now cc prev cur) =
  if intentRuns now cc prev cur
  then mkCalls (pendingSaves (calls cur)) (submitted (calls cur))
               (consoleErrors (calls cur)) (now :: autoOpenRequests (calls cur))
  else calls cur.
Proof.
  unfold commit.
  rewrite commitRound_calls, intentRuns_second. apply commitRound_calls.
Qed.

(** *** The effect timeouts follow the state *)

Lemma effects_timersOk (now : Z) (prev cur : State) :
  timersOk prev -> carried prev cur -> timersOk (effects now prev cur).
Proof.
  unfold timersOk, carried, effects, autoCloseEffect, successResetEffect.
  intros [P1 P2] [C1 C2].
  destruct prev as [po pw pa ps pl pt pr pf], cur as [o w a s l t r f].
  simpl in *.
  destruct po, o, pa, a, ps, s; simpl in *;
    try (rewrite C1 by reflexivity); try (rewrite C2 by reflexivity);
    auto.
Qed.

Lemma carried_same_timers (prev cur : State) :
  autoCloseTimer cur = autoCloseTimer prev ->
  successResetTimer cur = successResetTimer prev ->
  carried prev cur.
Proof. unfold carried. auto. Qed.

Lemma openDrawer_timers (b a : bool) (now : Z) (d : State) :
  autoCloseTimer (openDrawer b a now d) = autoCloseTimer d /\
  successResetTimer (openDrawer b a now d) = successResetTimer d.
Proof. unfold openDrawer. repeat break_if; auto. Qed.

Lemma closeDrawer_timers (now : Z) (d : State) :
  autoCloseTimer (closeDrawer now d) = autoCloseTimer d /\
  successResetTimer (closeDrawer now d) = successResetTimer d.
Proof. auto. Qed.

Lemma toggleDrawer_timers (b : bool) (now : Z) (d : State) :
  autoCloseTimer (toggleDrawer b now d) = autoCloseTimer d /\
  successResetTimer (toggleDrawer b now d) = successResetTimer d.
Proof.
  unfold toggleDrawer.
  repeat break_if; auto using openDrawer_timers, closeDrawer_timers.
Qed.

Lemma handle_carried (now : Z) (e : Event) (w : World) :
  timersOk (drawer w) -> carried (drawer w) (drawer (handle now e w)).
Proof.
  intros [P1 P2].
  destruct e; simpl;
    try (apply carried_same_timers; reflexivity).
  - apply carried_same_timers; apply openDrawer_timers.
  - apply carried_same_timers; apply toggleDrawer_timers.
  - unfold safeToggleDrawer.
    repeat break_if; simpl;
      apply carried_same_timers; try reflexivity; apply toggleDrawer_timers.
  - unfold handleEmailSubmit.
    repeat break_if; apply carried_same_timers; reflexivity.
  - unfold handleEmailSubmitResume.
    repeat break_if; apply carried_same_timers; reflexivity.
  - unfold dueNow. destruct (autoCloseTimer (drawer w)) eqn:Et;
      [|apply carried_same_timers; reflexivity].
    destruct (z <=? now); [|apply carried_same_timers; reflexivity].
    simpl in P1. symmetry in P1. apply Bool.andb_true_iff in P1 as [Ho Ha].
    unfold carried. simpl. rewrite Ho. split; [discriminate|discriminate].
  - unfold dueNow. destruct (successResetTimer (drawer w)) eqn:Et;
      [|apply carried_same_timers; reflexivity].
    destruct (z <=? now); [|apply carried_same_timers; reflexivity].
    simpl in P2. symmetry in P2. apply Bool.andb_true_iff in P2 as [Ho Hs].
    unfold carried. simpl. rewrite Hs. split; [reflexivity|discriminate].
  - break_if; apply carried_same_timers; reflexivity.
  - break_if; apply carried_same_timers; reflexivity.
Qed.

Lemma commit_timersOk (now : Z) (cc : bool) (prev cur : World) :
  timersOk (drawer prev) -> carried (drawer prev) (drawer cur) ->
  timersOk (drawer (commit now cc prev cur)).
Proof.
  intros P C. rewrite commit_drawer. cbv zeta.
  pose proof (effects_timersOk now _ _ P C) as P1.
  break_if; auto.
  apply effects_timersOk; auto.
  apply carried_same_timers; apply openDrawer_timers.
Qed.

Lemma step_timersOk (now : Z) (e : Event) (w : World) :
  timersOk (drawer w) -> timersOk (drawer (step now e w)).
Proof.
  intros P. unfold step. apply commit_timersOk; auto using handle_carried.
Qed.

Lemma mountEffects_cooldown (now : Z) (w0 : World) :
  isOpen (drawer w0) = false ->
  mountEffects now w0 = armCooldown now w0.
Proof.
  unfold mountEffects. intros ->. simpl.
  now rewrite intentEffect_cooldown.
Qed.

Lemma mount_eq (now : Z) (cs : option ChatStatus) (c : Chat) :
  mount now cs c =
  mkWorld initial cs c (mkRefs true now [now + 10000]) (mkCalls [] [] 0 []).
Proof.
  unfold mount. rewrite mountEffects_cooldown by reflexivity.
  unfold commitRound, intentRuns, intentDepsChanged, cooldownEffect. simpl.
  reflexivity.
Qed.

Lemma run_timersOk (tr : list (Z * Event)) (w : World) :
  timersOk (drawer w) -> timersOk (drawer (run tr w)).
Proof.
  revert w. induction tr as [|[now e] tr IH]; intros w P; simpl; auto.
  apply IH, step_timersOk, P.
Qed.

Lemma reachable_timersOk (now0 : Z) (cs : option ChatStatus) (c : Chat)
      (tr : list (Z * Event)) :
  timersOk (drawer (run tr (mount now0 cs c))).
Proof.
  apply run_timersOk. rewrite mount_eq. split; reflexivity.
Qed.

(** *** Commits that do not run the intent effect, or that run it in vain *)

Lemma intentRuns_open (now : Z) (cc : bool) (prev cur : World) :
  isOpen (drawer cur) = true -> intentRuns now cc prev cur = false.
Proof.
  intros H. destruct (intentRuns now cc prev cur) eqn:E; auto.
  apply intentRuns_closed_idle in E as (E & _). congruence.
Qed.

Lemma intentRuns_cooldown (now : Z) (cc : bool) (prev cur : World) :
  cooldownRef (refs (cooldownEffect now prev cur)) = true ->
  intentRuns now cc prev cur = false.
Proof.
  intros H. destruct (intentRuns now cc prev cur) eqn:E; auto.
  apply intentRuns_closed_idle in E as (_ & _ & E). congruence.
Qed.

Lemma commitRound_quiet (now : Z) (prev cur : World) :
  drawer cur = drawer prev -> commitRound now false prev cur = cur.
Proof.
  intros H.
  unfold commitRound, intentRuns, cooldownEffect, intentDepsChanged.
  rewrite H, Bool.eqb_reflx, stateChanged_same, effects_same. simpl.
  rewrite <- H. apply setDrawer_same.
Qed.

Lemma commit_quiet (now : Z) (prev cur : World) :
  drawer cur = drawer prev -> commit now false prev cur = cur.
Proof.
  intros H. unfold commit.
  rewrite (commitRound_quiet now prev cur H). apply commitRound_same.
Qed.

(** The drawer after a step: the effects applied to what the handler wrote,
    unless the intent effect asked for the drawer and obtained it. *)
Lemma step_drawer_cases (now : Z) (e : Event) (w : World) :
  let cur := handle now e w in
  let d1 := effects now (drawer w) (drawer cur) in
  drawer (step now e w) = d1 \/
  (isOpen (drawer cur) = false /\ busy cur = false /\
   2000 <= now - lastCloseTimeRef (drawer cur) /\
   intentRuns now (isChatUpdate e) w cur = true /\
   drawer (step now e w)
   = effects now d1 (setIsAutomaticOpen true (setIsOpen true d1))).
Proof.
  cbv zeta. unfold step. rewrite commit_drawer. cbv zeta.
  destruct (intentRuns _ _ _ _) eqn:Hr; auto.
  destruct (effects_flags now (drawer w) (drawer (handle now e w)))
    as (Hf & Hl & _).
  destruct (Z.lt_ge_cases (now - lastCloseTimeRef (drawer (handle now e w))) 2000)
    as [Hlt | Hge].
  - left. rewrite openDrawer_blocked by (right; now rewrite Hl).
    apply effects_same.
  - right. apply intentRuns_closed_idle in Hr as Hc.
    destruct Hc as (Ho & Hb & _).
    rewrite openDrawer_accepted by now rewrite Hl. auto.
Qed.

Lemma step_drawer_recent_close (now : Z) (e : Event) (w : World) :
  now - lastCloseTimeRef (drawer (handle now e w)) < 2000 ->
  drawer (step now e w) = effects now (drawer w) (drawer (handle now e w)).
Proof.
  intros H. destruct (step_drawer_cases now e w) as [E | (_ & _ & Hge & _)]; auto.
  lia.
Qed.

Lemma step_drawer_open (now : Z) (e : Event) (w : World) :
  isOpen (drawer (handle now e w)) = true ->
  drawer (step now e w) = effects now (drawer w) (drawer (handle now e w)).
Proof.
  intros H. destruct (step_drawer_cases now e w) as [E | (Ho & _)]; auto.
  congruence.
Qed.

Lemma step_drawer_cooldown (now : Z) (e : Event) (w : World) :
  cooldownRef (refs (cooldownEffect now w (handle now e w))) = true ->
  drawer (step now e w) = effects now (drawer w) (drawer (handle now e w)).
Proof.
  intros H. unfold step. rewrite commit_drawer. cbv zeta.
  now rewrite intentRuns_cooldown.
Qed.

(** Due times the effects choose. *)
Lemma effects_autoCloseTimer (now : Z) (prev cur : State) :
  autoCloseTimer (effects now prev cur) =
  if Bool.eqb (isOpen prev) (isOpen cur)
     && Bool.eqb (isAutomaticOpen prev) (isAutomaticOpen cur)
  then autoCloseTimer cur
  else if isOpen cur && isAutomaticOpen cur then Some (now + 8000) else None.
Proof.
  unfold effects, autoCloseEffect, successResetEffect.
  repeat break_if; reflexivity.
Qed.

Lemma effects_successResetTimer (now : Z) (prev cur : State) :
  successResetTimer (effects now prev cur) =
  if Bool.eqb (isOpen prev) (isOpen cur)
     && Bool.eqb (registrationSuccess prev) (registrationSuccess cur)
  then successResetTimer cur
  else if negb (isOpen cur) && registrationSuccess cur
       then Some (now + 500) else None.
Proof.
  unfold effects, autoCloseEffect, successResetEffect.
  destruct (Bool.eqb (isOpen prev) (isOpen cur)
            && Bool.eqb (isAutomaticOpen prev) (isAutomaticOpen cur));
    [|destruct (isOpen cur && isAutomaticOpen cur)]; simpl;
    repeat break_if; reflexivity.
Qed.

Lemma origin_flags (d1 d2 : State) : flagsEq d1 d2 -> origin d1 = origin d2.
Proof. intros (H1 & _ & H3 & _). unfold origin. now rewrite H1, H3. Qed.

(* ===================================================================== *)
(** ** The store: open, close, toggle *)
(* ===================================================================== *)

(** C2. [openDrawer] changes nothing when the assistant is busy (the chat
    status is streaming or submitted) or when less than 2000 ms have passed
    since the last close; otherwise it opens the drawer with the requested
    origin. Stated for the call itself and for the whole step, effects
    included. *)
Theorem C2_open_guard :
  forall (isAutomatic : bool) (now : Z) (w : World),
    (busy w = true <->
     chatStatus w = Some Streaming \/ chatStatus w = Some Submitted) /\
    (busy w = true \/ now - lastCloseTimeRef (drawer w) < 2000 ->
     openDrawer (busy w) isAutomatic now (drawer w) = drawer w /\
     step now (OpenDrawer isAutomatic) w = w) /\
    (busy w = false -> 2000 <= now - lastCloseTimeRef (drawer w) ->
     let d' := openDrawer (busy w) isAutomatic now (drawer w) in
     let w' := step now (OpenDrawer isAutomatic) w in
     d' = setIsAutomaticOpen isAutomatic (setIsOpen true (drawer w)) /\
     isOpen d' = true /\ origin d' = originOfFlag isAutomatic /\
     isOpen (drawer w') = true /\
     origin (drawer w') = originOfFlag isAutomatic).
Proof.
  intros a now w. split; [apply isAIWriting_true|]. split.
  - intros H. pose proof (openDrawer_blocked (busy w) a now (drawer w) H) as Hd.
    split; auto.
    unfold step. simpl. rewrite Hd, setDrawer_same. apply commit_same.
  - intros Hb Ht. cbv zeta. rewrite Hb.
    pose proof (openDrawer_accepted a now (drawer w) Ht) as Hd.
    assert (Hs : drawer (step now (OpenDrawer a) w)
                 = effects now (drawer w) (openDrawer false a now (drawer w))).
    { rewrite step_drawer_open; simpl; rewrite Hb; auto. now rewrite Hd. }
    destruct (effects_flags now (drawer w) (openDrawer false a now (drawer w)))
      as (Hf & _).
    rewrite Hs, (origin_flags _ _ Hf). destruct Hf as (-> & _).
    rewrite Hd. destruct a; simpl; auto.
Qed.

Lemma C2_open_guard_witness :
  step 100500 (OpenDrawer true) (mount 100000 (Some Streaming) sampleChat)
  = mount 100000 (Some Streaming) sampleChat /\
  origin (drawer (step 100500 (OpenDrawer true)
                       (mount 100000 (Some Ready) sampleChat))) = Automatic.
Proof.
  split.
  - destruct (C2_open_guard true 100500 (mount 100000 (Some Streaming) sampleChat))
      as (_ & H & _).
    apply H. left. reflexivity.
  - destruct (C2_open_guard true 100500 (mount 100000 (Some Ready) sampleChat))
      as (_ & _ & H).
    apply H; [reflexivity | vm_compute; discriminate].
Defined.

(** C4, as the code has it. The 2000 ms window counts from the last close,
    not from the last open. Once [openDrawer(true)] has succeeded, a later
    open call is never held back by that window: a second automatic open
    changes nothing, a call made while the assistant is busy changes
    nothing, and a manual open made while it is idle turns the origin to
    manual, however soon it comes. The drawer stays open in every case. *)
Theorem C4_open_after_automatic_open :
  forall (d : State) (now now' : Z) (busy' isAutomatic' : bool),
    2000 <= now - lastCloseTimeRef d ->
    now <= now' ->
    let d1 := openDrawer false true now d in
    let d2 := openDrawer busy' isAutomatic' now' d1 in
    isOpen d1 = true /\ origin d1 = Automatic /\
    isOpen d2 = true /\
    (isAutomatic' = true -> d2 = d1) /\
    (busy' = true -> d2 = d1) /\
    (busy' = false -> origin d2 = originOfFlag isAutomatic').
Proof.
  intros d now now' b a Ht Hle. cbv zeta.
  rewrite (openDrawer_accepted true now d Ht).
  unfold openDrawer. simpl.
  assert (E : (now' - lastCloseTimeRef d <? 2000) = false) by (apply Z.ltb_ge; lia).
  rewrite E. destruct b, a; simpl; repeat split; auto; discriminate.
Qed.

Lemma C4_open_after_automatic_open_witness :
  origin (openDrawer false false 105500 (openDrawer false true 105000 initial))
  = Manual.
Proof.
  destruct (C4_open_after_automatic_open initial 105000 105500 false false)
    as (_ & _ & _ & _ & _ & H).
  - vm_compute; discriminate.
  - vm_compute; discriminate.
  - apply H. reflexivity.
Defined.

(** C4 as stated fails: 500 ms after a successful automatic open, a manual
    open is carried out and changes the origin. *)
Lemma C4_counterexample :
  let d1 := openDrawer false true 105000 initial in
  let d2 := openDrawer false false 105500 d1 in
  isOpen d1 = true /\ origin d1 = Automatic /\
  105500 - 105000 < 2000 /\
  origin d2 = Manual /\ d2 <> d1.
Proof. vm_compute. repeat split; congruence. Qed.

Lemma commit_flags_quiet (now : Z) (prev cur : World) :
  flagsEq (drawer prev) (drawer cur) -> commit now false prev cur = cur.
Proof.
  intros H.
  assert (R : commitRound now false prev cur = cur).
  { unfold commitRound, intentRuns, cooldownEffect, intentDepsChanged.
    rewrite (stateChanged_flags _ _ H), (effects_stable _ _ _ H).
    destruct H as (-> & _). rewrite Bool.eqb_reflx. simpl.
    apply setDrawer_same. }
  unfold commit. rewrite R. apply commitRound_same.
Qed.

Lemma timersOk_not_automatic (d : State) :
  timersOk d -> origin d <> Automatic -> autoCloseTimer d = None.
Proof.
  intros [H _] Ho. unfold origin in Ho.
  destruct (autoCloseTimer d); auto.
  simpl in H. symmetry in H. apply Bool.andb_true_iff in H as [H1 H2].
  rewrite H1, H2 in Ho. congruence.
Qed.

Lemma timersOk_automatic (d : State) (due : Z) :
  timersOk d -> autoCloseTimer d = Some due ->
  isOpen d = true /\ isAutomaticOpen d = true.
Proof.
  intros [H _] E. rewrite E in H. simpl in H. symmetry in H.
  now apply Bool.andb_true_iff in H.
Qed.

Lemma timersOk_success (d : State) (due : Z) :
  timersOk d -> successResetTimer d = Some due ->
  isOpen d = false /\ registrationSuccess d = true.
Proof.
  intros [_ H] E. rewrite E in H. simpl in H. symmetry in H.
  apply Bool.andb_true_iff in H as [H1 H2].
  now apply Bool.negb_true_iff in H1.
Qed.

Lemma removeOne_head (x : Z) (l : list Z) : removeOne Z.eqb x (x :: l) = l.
Proof. simpl. now rewrite Z.eqb_refl. Qed.

Lemma In_memZ (x : Z) (l : list Z) : In x l -> memZ x l = true.
Proof.
  intros H. unfold memZ. apply existsb_exists. exists x.
  split; auto. apply Z.eqb_refl.
Qed.

(** The 50 ms callback, whenever it runs: the drawer is closed, and
    nothing else of the store changes but the spent timeout. *)
Lemma step_forceClose (t due : Z) (w1 : World) :
  In due (forceCloseTimers (drawer w1)) -> due <= t ->
  let w2 := step t (ForceCloseFire due) w1 in
  isOpen (drawer w2) = false /\
  isAutomaticOpen (drawer w2) = isAutomaticOpen (drawer w1) /\
  isWaitingForEmail (drawer w2) = isWaitingForEmail (drawer w1) /\
  registrationSuccess (drawer w2) = registrationSuccess (drawer w1) /\
  lastCloseTimeRef (drawer w2) = lastCloseTimeRef (drawer w1) /\
  forceCloseTimers (drawer w2)
  = removeOne Z.eqb due (forceCloseTimers (drawer w1)).
Proof.
  intros Hin Hle w2.
  set (cur := setDrawer (forceCloseCallback
                           (setForceCloseTimers
                              (removeOne Z.eqb due (forceCloseTimers (drawer w1)))
                              (drawer w1))) w1).
  assert (Hh : handle t (ForceCloseFire due) w1 = cur).
  { simpl. rewrite (In_memZ _ _ Hin). apply Z.leb_le in Hle.
    now rewrite Hle. }
  assert (Hd : drawer w2 = effects t (drawer w1) (drawer cur)).
  { unfold w2. destruct (isOpen (drawer w1)) eqn:Ho.
    - rewrite step_drawer_cooldown; rewrite Hh; auto.
      unfold cooldownEffect. simpl. now rewrite Ho.
    - unfold step. rewrite Hh. cbn [isChatUpdate].
      rewrite commit_flags_quiet.
      + symmetry. apply effects_stable. unfold flagsEq. simpl. auto.
      + unfold flagsEq. simpl. auto. }
  destruct (effects_flags t (drawer w1) (drawer cur))
    as ((Ho & Hw & Ha & Hs) & Hl & Hf).
  rewrite Hd, Ho, Hw, Ha, Hs, Hl, Hf. simpl. repeat split; reflexivity.
Qed.

(** C5. [closeDrawer] closes the drawer, resets [isAutomaticOpen] (the
    origin is forgotten), leaves the email sub-mode, records the instant of
    the close and schedules a second [setIsOpen(false)] 50 ms later; the
    commit that follows clears the auto-close timeout. The second write
    closes the drawer whenever it runs, whatever has happened since, and
    changes nothing else; it is idempotent, and on the state the close has
    left the only thing that changes is that its timeout is spent. *)
Theorem C5_closeDrawer :
  forall (now0 : Z) (cs0 : option ChatStatus) (c0 : Chat)
         (tr : list (Z * Event)) (now : Z) (d : State)
         (w1 : World) (due t1 : Z),
    (let d' := closeDrawer now d in
     isOpen d' = false /\ origin d' = NoOrigin /\
     isWaitingForEmail d' = false /\ lastCloseTimeRef d' = now /\
     registrationSuccess d' = registrationSuccess d /\
     forceCloseTimers d' = now + 50 :: forceCloseTimers d /\
     forceCloseCallback d' = d' /\
     forceCloseCallback (forceCloseCallback d) = forceCloseCallback d /\
     isAutomaticOpen d' = false /\
     isOpen (forceCloseCallback d) = false /\
     forceCloseCallback d = setIsOpen false d) /\
    (let w := run tr (mount now0 cs0 c0) in
     let w' := step now CloseDrawer w in
     isOpen (drawer w') = false /\ origin (drawer w') = NoOrigin /\
     isWaitingForEmail (drawer w') = false /\
     lastCloseTimeRef (drawer w') = now /\
     autoCloseTimer (drawer w') = None /\
     forceCloseTimers (drawer w') = now + 50 :: forceCloseTimers (drawer w) /\
     (forall t, now + 50 <= t ->
        step t (ForceCloseFire (now + 50)) w'
        = setDrawer (setForceCloseTimers (forceCloseTimers (drawer w))
                                         (drawer w')) w') /\
     isAutomaticOpen (drawer w') = false) /\
    (In due (forceCloseTimers (drawer w1)) -> due <= t1 ->
     let w2 := step t1 (ForceCloseFire due) w1 in
     isOpen (drawer w2) = false /\
     isAutomaticOpen (drawer w2) = isAutomaticOpen (drawer w1) /\
     isWaitingForEmail (drawer w2) = isWaitingForEmail (drawer w1) /\
     registrationSuccess (drawer w2) = registrationSuccess (drawer w1) /\
     lastCloseTimeRef (drawer w2) = lastCloseTimeRef (drawer w1) /\
     forceCloseTimers (drawer w2)
     = removeOne Z.eqb due (forceCloseTimers (drawer w1))).
Proof.
  intros now0 cs0 c0 tr now d w1 due t1.
  split; [|split; [|apply step_forceClose]].
  - cbv zeta. unfold closeDrawer, forceCloseCallback, origin. simpl.
    repeat split; reflexivity.
  - cbv zeta.
    pose proof (reachable_timersOk now0 cs0 c0 tr) as Hok.
    set (w := run tr (mount now0 cs0 c0)) in *.
    assert (Hd : drawer (step now CloseDrawer w)
                 = effects now (drawer w) (closeDrawer now (drawer w))).
    { apply step_drawer_recent_close. simpl. lia. }
    destruct (effects_flags now (drawer w) (closeDrawer now (drawer w)))
      as (Hf & Hl & Hfc).
    assert (Ht : autoCloseTimer (drawer (step now CloseDrawer w)) = None).
    { pose proof (step_timersOk now CloseDrawer w Hok) as [H _].
      rewrite Hd in *. destruct Hf as (Ho & _ & Ha & _).
      rewrite Ho, Ha in H. simpl in H.
      now destruct (autoCloseTimer _). }
    rewrite (origin_flags _ _ (eq_ind_r (fun x => flagsEq x _) Hf Hd)).
    rewrite Hd in *. destruct Hf as (Ho & Hw & Ha & Hs).
    rewrite Ho, Hw, Ha, Hl, Hfc. simpl.
    repeat split; auto.
    intros t Hle. rewrite <- Hd.
    set (w' := step now CloseDrawer w) in *.
    unfold step. cbn [handle isChatUpdate].
    assert (Hfc' : forceCloseTimers (drawer w')
                   = now + 50 :: forceCloseTimers (drawer w))
      by now rewrite Hd, Hfc.
    assert (Ho' : isOpen (drawer w') = false)
      by now rewrite Hd, Ho.
    rewrite Hfc'. unfold memZ. cbn [existsb].
    rewrite Z.eqb_refl, removeOne_head. simpl.
    apply Z.leb_le in Hle. rewrite Hle.
    assert (E : forceCloseCallback
                  (setForceCloseTimers (forceCloseTimers (drawer w)) (drawer w'))
                = setForceCloseTimers (forceCloseTimers (drawer w)) (drawer w')).
    { unfold forceCloseCallback, setIsOpen, setForceCloseTimers. simpl.
      now rewrite Ho'. }
    rewrite E. apply commit_flags_quiet. simpl.
    unfold flagsEq. simpl. auto.
Qed.

Lemma C5_closeDrawer_witness :
  let w := step 120000 (OpenDrawer true) idleWorld in
  let w' := step 121000 CloseDrawer w in
  let w1 := step 130000 (OpenDrawer false) w' in
  isOpen (drawer w) = true /\
  step 121050 (ForceCloseFire (121000 + 50)) w'
  = setDrawer (setForceCloseTimers (forceCloseTimers (drawer w))
                                   (drawer w')) w' /\
  isOpen (drawer w1) = true /\
  isOpen (drawer (step 130001 (ForceCloseFire 121050) w1)) = false.
Proof.
  intros w w' w1.
  destruct (C5_closeDrawer 100000 (Some Ready) sampleChat
              [(110000, CooldownFire 110000); (120000, OpenDrawer true)]
              121000 initial w1 121050 130001) as (_ & H & H').
  cbv zeta in H. destruct H as (_ & _ & _ & _ & _ & _ & H & _).
  split; [reflexivity|]. split; [apply (H 121050); lia|].
  split; [reflexivity|].
  apply H'; [vm_compute; auto | lia].
Defined.

(* ===================================================================== *)
(** ** The timeouts of the provider *)
(* ===================================================================== *)

Lemma step_not_due_autoClose (t : Z) (w : World) (due : Z) :
  autoCloseTimer (drawer w) = Some due -> t < due ->
  step t AutoCloseFire w = w.
Proof.
  intros E H. unfold step. simpl. rewrite E. simpl.
  apply Z.leb_gt in H. rewrite H. apply commit_same.
Qed.

Lemma step_no_autoClose (t : Z) (w : World) :
  autoCloseTimer (drawer w) = None -> step t AutoCloseFire w = w.
Proof.
  intros E. unfold step. simpl. rewrite E. simpl. apply commit_same.
Qed.

(** C3. What the auto-close of the code does, and where it leaves the
    claim. An automatic open that succeeds on a drawer not already open
    automatically arms a timeout due 8000 ms later (on a drawer already
    open automatically it changes nothing). The timeout does not run before
    it is due; it is pending only while the drawer is open automatically,
    so a closed drawer or a drawer opened by hand has none and never closes
    by itself. When it runs, the drawer closes and [isAutomaticOpen] is
    reset. The claim has the callback call [closeDrawer], as every other
    way of closing does; the callback writes the two cells itself instead,
    so the instant of the close is not recorded in [lastCloseTimeRef], the
    email sub-mode is not left and no 50 ms re-assert is scheduled. *)
Theorem C3_auto_close :
  forall (now0 : Z) (cs0 : option ChatStatus) (c0 : Chat)
         (tr : list (Z * Event)) (now : Z),
    let w := run tr (mount now0 cs0 c0) in
    (busy w = false -> 2000 <= now - lastCloseTimeRef (drawer w) ->
     origin (drawer w) <> Automatic ->
     let w1 := step now (OpenDrawer true) w in
     origin (drawer w1) = Automatic /\
     autoCloseTimer (drawer w1) = Some (now + 8000)) /\
    (busy w = false -> 2000 <= now - lastCloseTimeRef (drawer w) ->
     origin (drawer w) = Automatic ->
     drawer (step now (OpenDrawer true) w) = drawer w) /\
    (forall due, autoCloseTimer (drawer w) = Some due -> due <= now ->
     let w2 := step now AutoCloseFire w in
     isOpen (drawer w2) = false /\ isAutomaticOpen (drawer w2) = false /\
     origin (drawer w2) = NoOrigin /\
     autoCloseTimer (drawer w2) = None /\
     lastCloseTimeRef (drawer w2) = lastCloseTimeRef (drawer w) /\
     isWaitingForEmail (drawer w2) = isWaitingForEmail (drawer w) /\
     forceCloseTimers (drawer w2) = forceCloseTimers (drawer w)) /\
    (forall due, autoCloseTimer (drawer w) = Some due -> now < due ->
     step now AutoCloseFire w = w) /\
    (origin (drawer w) <> Automatic ->
     autoCloseTimer (drawer w) = None /\ step now AutoCloseFire w = w).
Proof.
  intros now0 cs0 c0 tr now w.
  pose proof (reachable_timersOk now0 cs0 c0 tr) as Hok. fold w in Hok.
  split; [|split; [|split; [|split]]].
  - intros Hb Ht Ho w1.
    assert (Hh : drawer (handle now (OpenDrawer true) w)
                 = setIsAutomaticOpen true (setIsOpen true (drawer w))).
    { simpl. rewrite Hb. now apply openDrawer_accepted. }
    assert (Hd : drawer w1 = effects now (drawer w)
                               (setIsAutomaticOpen true (setIsOpen true (drawer w)))).
    { unfold w1. rewrite step_drawer_open; now rewrite Hh. }
    destruct (effects_flags now (drawer w)
                (setIsAutomaticOpen true (setIsOpen true (drawer w))))
      as (Hf & _).
    rewrite <- Hd in Hf. rewrite (origin_flags _ _ Hf). split; [reflexivity|].
    rewrite Hd, effects_autoCloseTimer. simpl.
    unfold origin in Ho.
    destruct (isOpen (drawer w)), (isAutomaticOpen (drawer w));
      simpl; congruence.
  - intros Hb Ht Ho.
    assert (Hf : isOpen (drawer w) = true /\ isAutomaticOpen (drawer w) = true).
    { unfold origin in Ho.
      destruct (isOpen (drawer w)), (isAutomaticOpen (drawer w));
        auto; discriminate. }
    destruct Hf as [Hf1 Hf2].
    assert (Hh : drawer (handle now (OpenDrawer true) w) = drawer w).
    { simpl. rewrite Hb, openDrawer_accepted by exact Ht.
      destruct (drawer w); simpl in *. now subst. }
    rewrite step_drawer_open by now rewrite Hh.
    rewrite Hh. apply effects_same.
  - intros due E Hle w2.
    destruct (timersOk_automatic _ _ Hok E) as [Ho Ha].
    assert (Hh : handle now AutoCloseFire w
                 = setDrawer (autoCloseCallback (drawer w)) w).
    { simpl. rewrite E. simpl. apply Z.leb_le in Hle. now rewrite Hle. }
    assert (Hd : drawer w2 = effects now (drawer w) (autoCloseCallback (drawer w))).
    { unfold w2. rewrite step_drawer_cooldown; rewrite Hh; auto.
      unfold cooldownEffect. simpl. now rewrite Ho. }
    destruct (effects_flags now (drawer w) (autoCloseCallback (drawer w)))
      as (Hf & Hl & Hfc).
    rewrite <- Hd in Hf, Hl, Hfc.
    rewrite (origin_flags _ _ Hf), Hl, Hfc.
    destruct Hf as (-> & -> & -> & _).
    rewrite Hd, effects_autoCloseTimer. simpl. rewrite Ho, Ha. simpl.
    repeat split; reflexivity.
  - intros due E Hlt. now apply step_not_due_autoClose with due.
  - intros Ho. pose proof (timersOk_not_automatic _ Hok Ho) as E.
    split; auto using step_no_autoClose.
Qed.

Lemma C3_auto_close_witness :
  let w0 := run (firstn 2 untouchedTrace)
                (mount 100000 (Some Ready) sampleChat) in
  let w2 := step 128000 AutoCloseFire w0 in
  autoCloseTimer
    (drawer (step 120000 (OpenDrawer true) idleWorld)) = Some (120000 + 8000) /\
  isOpen (drawer w2) = false /\ isAutomaticOpen (drawer w2) = false /\
  lastCloseTimeRef (drawer w2) = 0.
Proof.
  intros w0 w2. split.
  - destruct (C3_auto_close 100000 (Some Ready) sampleChat
                [(110000, CooldownFire 110000)] 120000) as (H & _).
    apply H; [reflexivity | vm_compute; discriminate | vm_compute; discriminate].
  - destruct (C3_auto_close 100000 (Some Ready) sampleChat
                (firstn 2 untouchedTrace) 128000) as (_ & _ & H & _).
    destruct (H 128000 eq_refl ltac:(lia)) as (H1 & H2 & _ & _ & H3 & _).
    fold w0 in H1, H2, H3. fold w2 in H1, H2, H3.
    rewrite H1, H2, H3. repeat split; reflexivity.
Defined.

(** C3 at the failing input: when the auto-close runs at 128000,
    [closeDrawer] is not called. The instant of the close is not recorded,
    so an open request 500 ms later is accepted where [closeDrawer] would
    have had it refused; and an email sub-mode entered meanwhile survives
    the close. *)
Lemma C3_counterexample :
  let w0 := run (firstn 2 untouchedTrace)
                (mount 100000 (Some Ready) sampleChat) in
  let w := step 128000 AutoCloseFire w0 in
  let w' := run (firstn 5 lateEmailTrace)
                (mount 100000 (Some Ready) sampleChat) in
  origin (drawer w0) = Automatic /\
  autoCloseTimer (drawer w0) = Some 128000 /\
  w = run untouchedTrace (mount 100000 (Some Ready) sampleChat) /\
  isOpen (drawer w) = false /\
  lastCloseTimeRef (drawer w) = 0 /\
  lastCloseTimeRef (closeDrawer 128000 (drawer w0)) = 128000 /\
  isOpen (drawer (step 128500 (OpenDrawer false) w)) = true /\
  isOpen (drawer w') = false /\ isWaitingForEmail (drawer w') = true /\
  isWaitingForEmail (closeDrawer 128000 (drawer w')) = false.
Proof. vm_compute. repeat split; reflexivity. Qed.

(** C9, as the code has it. The reset timeout is armed when the condition
    "drawer closed and success shown" starts to hold, and is due 500 ms
    after that instant: the close of the drawer if success was already
    shown, the write of the success flag if the drawer was already closed.
    It keeps its due time while the condition holds, is cleared as soon as
    the condition stops holding (the drawer reopens or the flag is cleared),
    does not run before it is due, and clears the flag when it runs. *)
Theorem C9_success_reset :
  forall (now0 : Z) (cs0 : option ChatStatus) (c0 : Chat)
         (tr : list (Z * Event)) (now : Z) (e : Event),
    let w := run tr (mount now0 cs0 c0) in
    let w' := step now e w in
    (successResetPending (drawer w) = false ->
     successResetPending (drawer w') = true ->
     successResetTimer (drawer w') = Some (now + 500)) /\
    (successResetPending (drawer w) = true ->
     successResetPending (drawer w') = true ->
     successResetTimer (drawer w') = successResetTimer (drawer w)) /\
    (successResetPending (drawer w') = false ->
     successResetTimer (drawer w') = None) /\
    (forall due, successResetTimer (drawer w) = Some due -> due <= now ->
     registrationSuccess (drawer (step now SuccessResetFire w)) = false /\
     successResetTimer (drawer (step now SuccessResetFire w)) = None) /\
    (forall due, successResetTimer (drawer w) = Some due -> now < due ->
     step now SuccessResetFire w = w).
Proof.
  intros now0 cs0 c0 tr now e w w'.
  pose proof (reachable_timersOk now0 cs0 c0 tr) as Hok. fold w in Hok.
  pose proof (step_timersOk now e w Hok) as Hok'. fold w' in Hok'.
  pose proof (handle_carried now e w Hok) as [_ Hc].
  assert (Hcases :
            successResetPending (drawer w') = true ->
            drawer w' = effects now (drawer w) (drawer (handle now e w)) /\
            successResetPending (drawer (handle now e w)) = true).
  { intros Hp. unfold w' in *.
    destruct (effects_flags now (drawer w) (drawer (handle now e w)))
      as ((Ho & _ & _ & Hs) & _).
    destruct (step_drawer_cases now e w) as [E | (_ & _ & _ & _ & E)].
    - split; auto. rewrite E in Hp. unfold successResetPending in *.
      now rewrite <- Ho, <- Hs.
    - rewrite E in Hp. unfold successResetPending in Hp.
      destruct (effects_flags now
                  (effects now (drawer w) (drawer (handle now e w)))
                  (setIsAutomaticOpen true
                     (setIsOpen true
                        (effects now (drawer w) (drawer (handle now e w))))))
        as ((Ho' & _) & _).
      rewrite Ho' in Hp. discriminate. }
  split; [|split; [|split; [|split]]].
  - intros Hp Hp'. destruct (Hcases Hp') as [-> Hq].
    rewrite effects_successResetTimer.
    unfold successResetPending in *.
    destruct (isOpen (drawer w)), (registrationSuccess (drawer w)),
      (isOpen (drawer (handle now e w))),
      (registrationSuccess (drawer (handle now e w)));
      simpl in *; congruence.
  - intros Hp Hp'. destruct (Hcases Hp') as [-> Hq].
    rewrite effects_successResetTimer.
    unfold successResetPending in *.
    destruct (isOpen (drawer w)) eqn:E1,
      (registrationSuccess (drawer w)) eqn:E2,
      (isOpen (drawer (handle now e w))) eqn:E3,
      (registrationSuccess (drawer (handle now e w))) eqn:E4;
      simpl in *; try congruence.
    apply Hc; reflexivity.
  - intros Hp. destruct Hok' as [_ H]. unfold successResetPending in Hp.
    rewrite Hp in H. revert H.
    destruct (successResetTimer (drawer w')); simpl; [discriminate|reflexivity].
  - intros due E Hle.
    pose proof (step_timersOk now SuccessResetFire w Hok) as [_ H].
    assert (Hs : registrationSuccess (drawer (step now SuccessResetFire w))
                 = false).
    { assert (Hh : registrationSuccess (drawer (handle now SuccessResetFire w))
                   = false).
      { simpl. rewrite E. simpl. apply Z.leb_le in Hle. now rewrite Hle. }
      destruct (effects_flags now (drawer w)
                  (drawer (handle now SuccessResetFire w)))
        as ((_ & _ & _ & Hs1) & _).
      destruct (step_drawer_cases now SuccessResetFire w)
        as [-> | (_ & _ & _ & _ & ->)].
      - congruence.
      - match goal with
        | |- registrationSuccess (effects ?n ?p ?c) = _ =>
            destruct (effects_flags n p c) as ((_ & _ & _ & ->) & _)
        end. cbn [registrationSuccess setIsAutomaticOpen setIsOpen].
        congruence. }
    split; auto. rewrite Hs, Bool.andb_false_r in H.
    revert H.
    destruct (successResetTimer (drawer (step now SuccessResetFire w)));
      simpl; [discriminate|reflexivity].
  - intros due E Hlt. unfold step. simpl. rewrite E. simpl.
    apply Z.leb_gt in Hlt. rewrite Hlt. apply commit_same.
Qed.

Lemma C9_success_reset_witness :
  successResetTimer
    (drawer (step 130000 (SetRegistrationSuccess true) idleWorld))
  = Some (130000 + 500).
Proof.
  destruct (C9_success_reset 100000 (Some Ready) sampleChat
              [(110000, CooldownFire 110000)] 130000
              (SetRegistrationSuccess true)) as (H & _).
  apply H; reflexivity.
Defined.

(** C9 as stated fails: the drawer closes by itself at 128000, the success
    flag is written at 140200, long after the 500-600 ms that follow the
    close, and its reset is due at 140700, 500 ms after the write. *)
Lemma C9_counterexample :
  let w0 := mount 100000 (Some Ready) sampleChat in
  let w := run lateEmailTrace w0 in
  isOpen (drawer (run (firstn 4 lateEmailTrace) w0)) = true /\
  isOpen (drawer (run (firstn 5 lateEmailTrace) w0)) = false /\
  isOpen (drawer (run (firstn 6 lateEmailTrace) w0)) = false /\
  isOpen (drawer w) = false /\ registrationSuccess (drawer w) = true /\
  128000 + 600 < 140200 /\
  successResetTimer (drawer w) = Some 140700 /\
  registrationSuccess (drawer (step 140650 SuccessResetFire w)) = true.
Proof. vm_compute. repeat split; reflexivity. Qed.

(* ===================================================================== *)
(** ** Invariants of whole runs *)
(* ===================================================================== *)

Lemma step_submodes (now : Z) (e : Event) (w : World) :
  isWaitingForEmail (drawer (step now e w))
  = isWaitingForEmail (drawer (handle now e w)) /\
  registrationSuccess (drawer (step now e w))
  = registrationSuccess (drawer (handle now e w)).
Proof.
  destruct (effects_flags now (drawer w) (drawer (handle now e w)))
    as ((_ & Hw & _ & Hs) & _).
  destruct (step_drawer_cases now e w) as [-> | (_ & _ & _ & _ & ->)]; auto.
  match goal with
  | |- context [effects ?n ?p ?c] =>
      destruct (effects_flags n p c) as ((_ & -> & _ & ->) & _)
  end. auto.
Qed.

Lemma openDrawer_submodes (b a : bool) (now : Z) (d : State) :
  isWaitingForEmail (openDrawer b a now d) = isWaitingForEmail d /\
  registrationSuccess (openDrawer b a now d) = registrationSuccess d.
Proof. unfold openDrawer. repeat break_if; auto. Qed.

Lemma toggleDrawer_submodes (b : bool) (now : Z) (d : State) :
  isWaitingForEmail d = false ->
  isWaitingForEmail (toggleDrawer b now d) = false /\
  registrationSuccess (toggleDrawer b now d) = registrationSuccess d.
Proof.
  intros H. unfold toggleDrawer.
  repeat break_if; auto; rewrite <- H; apply openDrawer_submodes.
Qed.

Lemma handle_drawerOp (now : Z) (e : Event) (w : World) :
  drawerOp e = true ->
  isWaitingForEmail (drawer w) = false ->
  registrationSuccess (drawer w) = false ->
  isWaitingForEmail (drawer (handle now e w)) = false /\
  registrationSuccess (drawer (handle now e w)) = false.
Proof.
  intros He Hw Hs. destruct e; try discriminate He; simpl.
  - destruct (openDrawer_submodes (busy w) isAutomatic now (drawer w)).
    split; congruence.
  - auto.
  - destruct (toggleDrawer_submodes (busy w) now (drawer w) Hw).
    split; congruence.
  - unfold safeToggleDrawer.
    destruct (toggleDrawer_submodes (busy w) now (drawer w) Hw).
    repeat break_if; simpl; split; congruence.
  - auto.
  - break_if; simpl; auto.
  - break_if; simpl; auto.
  - break_if; simpl; auto.
  - break_if; simpl; auto.
Qed.

(** C1. Whatever sequence of open, close and toggle calls is made after
    mounting, and whatever timeouts fire and chat updates arrive in between,
    the email sub-mode and the success sub-mode are never both on (neither
    is ever on: no such call sets them). *)
Theorem C1_submodes_exclusive :
  forall (now0 : Z) (cs0 : option ChatStatus) (c0 : Chat)
         (tr : list (Z * Event)),
    eventsAll drawerOp tr = true ->
    let w := run tr (mount now0 cs0 c0) in
    isWaitingForEmail (drawer w) && registrationSuccess (drawer w) = false /\
    isWaitingForEmail (drawer w) = false /\
    registrationSuccess (drawer w) = false.
Proof.
  intros now0 cs0 c0 tr Htr.
  assert (G : forall w0,
             isWaitingForEmail (drawer w0) = false ->
             registrationSuccess (drawer w0) = false ->
             isWaitingForEmail (drawer (run tr w0)) = false /\
             registrationSuccess (drawer (run tr w0)) = false).
  { induction tr as [|[now e] tr IH]; intros w0 Hw Hs; simpl; auto.
    simpl in Htr. apply Bool.andb_true_iff in Htr as [He Htr].
    destruct (handle_drawerOp now e w0 He Hw Hs) as [Hw' Hs'].
    destruct (step_submodes now e w0) as [Ew Es].
    apply IH; auto; congruence. }
  cbv zeta. destruct (G (mount now0 cs0 c0)) as [-> ->];
    try (rewrite mount_eq; reflexivity). auto.
Qed.

Lemma C1_submodes_exclusive_witness :
  let w := run [(120000, ToggleDrawer); (123000, OpenDrawer true);
                (125000, CloseDrawer); (125050, ForceCloseFire 125050)]
               (mount 100000 (Some Ready) sampleChat) in
  isWaitingForEmail (drawer w) && registrationSuccess (drawer w) = false.
Proof.
  intro w.
  apply (C1_submodes_exclusive 100000 (Some Ready) sampleChat
           [(120000, ToggleDrawer); (123000, OpenDrawer true);
            (125000, CloseDrawer); (125050, ForceCloseFire 125050)]).
  reflexivity.
Defined.

(** *** The controller's cooldown *)

Lemma memZ_In (x : Z) (l : list Z) : memZ x l = true -> In x l.
Proof.
  unfold memZ. intros H. apply existsb_exists in H as (y & Hy & E).
  apply Z.eqb_eq in E. now subst.
Qed.

Lemma removeOne_Forall (P : Z -> Prop) (x : Z) (l : list Z) :
  Forall P l -> Forall P (removeOne Z.eqb x l).
Proof.
  induction 1 as [|y l Hy Hl IH]; simpl; auto.
  destruct (x =? y); auto.
Qed.

Lemma cooldownEffect_refs (now : Z) (prev cur : World) :
  refs (cooldownEffect now prev cur) = refs cur \/
  refs (cooldownEffect now prev cur)
  = mkRefs true now (now + 10000 :: cooldownTimers (refs cur)).
Proof. unfold cooldownEffect. repeat break_if; auto. Qed.

Lemma cooldownEffect_keeps (now : Z) (prev cur : World) :
  cooldownRef (refs cur) = true ->
  cooldownRef (refs (cooldownEffect now prev cur)) = true.
Proof.
  intros H. destruct (cooldownEffect_refs now prev cur) as [-> | ->]; auto.
Qed.

Lemma cooldownEffect_timers (now : Z) (prev cur : World) (due : Z) :
  In due (cooldownTimers (refs cur)) ->
  In due (cooldownTimers (refs (cooldownEffect now prev cur))).
Proof.
  intros H. destruct (cooldownEffect_refs now prev cur) as [-> | ->];
    simpl; auto.
Qed.

Lemma handle_autoOpenRequests (now : Z) (e : Event) (w : World) :
  autoOpenRequests (calls (handle now e w)) = autoOpenRequests (calls w).
Proof.
  destruct e; simpl; auto;
    unfold safeToggleDrawer, handleEmailSubmit, handleEmailSubmitResume;
    repeat break_if; reflexivity.
Qed.

Lemma handle_coolInv (bound now : Z) (e : Event) (w : World) :
  now < bound -> bound <= now + 10000 ->
  coolInv bound w -> coolInv bound (handle now e w).
Proof.
  intros Hlt Hge (Hc & Ht & Ha). unfold coolInv.
  rewrite handle_autoOpenRequests. split; [|split]; auto.
  - destruct e; simpl; auto;
      unfold safeToggleDrawer, handleEmailSubmit, handleEmailSubmitResume;
      repeat break_if; simpl; auto.
    apply Bool.andb_true_iff in E as [Hm Hd].
    apply memZ_In in Hm. apply Z.leb_le in Hd.
    rewrite Forall_forall in Ht. specialize (Ht _ Hm). lia.
  - destruct e; simpl; auto;
      unfold safeToggleDrawer, handleEmailSubmit, handleEmailSubmitResume;
      repeat break_if; simpl; auto using removeOne_Forall.
Qed.

Lemma step_coolInv (bound now : Z) (e : Event) (w : World) :
  now < bound -> bound <= now + 10000 ->
  coolInv bound w -> coolInv bound (step now e w).
Proof.
  intros Hlt Hge Hi.
  destruct (handle_coolInv bound now e w Hlt Hge Hi) as (Hc & Ht & Ha).
  pose proof (cooldownEffect_keeps now w (handle now e w) Hc) as Hc'.
  unfold coolInv, step. rewrite commit_refs, commit_calls.
  rewrite (intentRuns_cooldown _ _ _ _ Hc'). repeat split; auto.
  destruct (cooldownEffect_refs now w (handle now e w)) as [-> | ->];
    simpl; auto.
Qed.

Lemma run_coolInv (now0 : Z) (tr : list (Z * Event)) (w : World) :
  timesWithin now0 (now0 + 10000) tr = true ->
  coolInv (now0 + 10000) w -> coolInv (now0 + 10000) (run tr w).
Proof.
  revert w. induction tr as [|[now e] tr IH]; intros w Htr Hi; simpl; auto.
  simpl in Htr. apply Bool.andb_true_iff in Htr as [Hn Htr].
  apply Bool.andb_true_iff in Hn as [Hlo Hhi].
  apply Z.leb_le in Hlo. apply Z.ltb_lt in Hhi.
  apply IH; auto. apply step_coolInv; auto; lia.
Qed.

Lemma openDrawer_manual_flag (b : bool) (now : Z) (d : State) :
  isAutomaticOpen d = false -> isAutomaticOpen (openDrawer b false now d) = false.
Proof. intros H. unfold openDrawer. repeat break_if; auto. Qed.

Lemma toggleDrawer_flag (b : bool) (now : Z) (d : State) :
  isAutomaticOpen d = false -> isAutomaticOpen (toggleDrawer b now d) = false.
Proof.
  intros H. unfold toggleDrawer.
  repeat break_if; auto using openDrawer_manual_flag.
Qed.

Lemma handle_uiEvent (now : Z) (e : Event) (w : World) :
  uiEvent e = true -> isAutomaticOpen (drawer w) = false ->
  isAutomaticOpen (drawer (handle now e w)) = false.
Proof.
  intros He H. destruct e; simpl; auto.
  - destruct isAutomatic; [discriminate He|].
    now apply openDrawer_manual_flag.
  - now apply toggleDrawer_flag.
  - unfold safeToggleDrawer.
    repeat break_if; simpl; auto using toggleDrawer_flag.
  - unfold handleEmailSubmit. repeat break_if; auto.
  - unfold handleEmailSubmitResume. repeat break_if; auto.
  - break_if; auto.
  - break_if; auto.
  - break_if; auto.
  - break_if; auto.
Qed.

Lemma step_flag_cooldown (now : Z) (e : Event) (w : World) :
  cooldownRef (refs (handle now e w)) = true ->
  isAutomaticOpen (drawer (step now e w))
  = isAutomaticOpen (drawer (handle now e w)).
Proof.
  intros H. rewrite step_drawer_cooldown by now apply cooldownEffect_keeps.
  now destruct (effects_flags now (drawer w) (drawer (handle now e w)))
    as ((_ & _ & -> & _) & _).
Qed.

Lemma run_first_cooldown_flag (now0 : Z) (tr : list (Z * Event)) (w : World) :
  timesWithin now0 (now0 + 10000) tr = true ->
  eventsAll uiEvent tr = true ->
  coolInv (now0 + 10000) w -> isAutomaticOpen (drawer w) = false ->
  isAutomaticOpen (drawer (run tr w)) = false.
Proof.
  revert w. induction tr as [|[now e] tr IH]; intros w Htr Hui Hi Ha;
    simpl; auto.
  simpl in Htr, Hui.
  apply Bool.andb_true_iff in Htr as [Hn Htr].
  apply Bool.andb_true_iff in Hui as [He Hui].
  apply Bool.andb_true_iff in Hn as [Hlo Hhi].
  apply Z.leb_le in Hlo. apply Z.ltb_lt in Hhi.
  apply IH; auto.
  - apply step_coolInv; auto; lia.
  - rewrite step_flag_cooldown.
    + now apply handle_uiEvent.
    + apply (handle_coolInv (now0 + 10000) now e w); auto; lia.
Qed.

Lemma step_isOpen_false (now : Z) (e : Event) (w : World) :
  isOpen (drawer (step now e w)) = false ->
  isOpen (drawer (handle now e w)) = false.
Proof.
  destruct (effects_flags now (drawer w) (drawer (handle now e w)))
    as ((Ho & _) & _).
  destruct (step_drawer_cases now e w) as [-> | (H & _)]; auto.
  congruence.
Qed.

(** C10. The cooldown flag of the controller is armed, with a 10 s timeout
    to clear it, at mount, whenever [isOpen] goes from true to false, by the
    toggle button when the drawer is closed, and by a successful email
    submission. While it is set the intent effect asks for nothing. From
    the mount until 10 s later the flag stays set, so intent detection makes
    no open request at all, and the drawer is never open automatically as
    long as nothing else calls [openDrawer(true)]. *)
Theorem C10_cooldown :
  forall (now0 : Z) (cs0 : option ChatStatus) (c0 : Chat)
         (tr : list (Z * Event)) (w : World) (now : Z) (e : Event),
    refs (mount now0 cs0 c0) = mkRefs true now0 [now0 + 10000] /\
    (isOpen (drawer w) = true -> isOpen (drawer (step now e w)) = false ->
     refs (step now e w)
     = mkRefs true now (now + 10000 :: cooldownTimers (refs (handle now e w)))) /\
    (busy w = false -> isOpen (drawer w) = false ->
     cooldownRef (refs (step now SafeToggleDrawer w)) = true /\
     In (now + 10000) (cooldownTimers (refs (step now SafeToggleDrawer w)))) /\
    (forall email, memStr email (pendingSaves (calls w)) = true ->
     cooldownRef (refs (step now (SaveEmailSettled email true) w)) = true /\
     In (now + 10000)
        (cooldownTimers (refs (step now (SaveEmailSettled email true) w)))) /\
    (forall st o b msgs, intentEffect st true o b msgs = false) /\
    (cooldownRef (refs (handle now e w)) = true ->
     autoOpenRequests (calls (step now e w)) = autoOpenRequests (calls w)) /\
    (timesWithin now0 (now0 + 10000) tr = true ->
     let w' := run tr (mount now0 cs0 c0) in
     cooldownRef (refs w') = true /\
     autoOpenRequests (calls w') = [] /\
     (eventsAll uiEvent tr = true ->
      isAutomaticOpen (drawer w') = false /\ origin (drawer w') <> Automatic)).
Proof.
  intros now0 cs0 c0 tr w now e.
  assert (Hm : coolInv (now0 + 10000) (mount now0 cs0 c0)).
  { rewrite mount_eq. unfold coolInv. simpl. repeat split; auto.
    constructor; [lia | constructor]. }
  split; [now rewrite mount_eq|].
  split; [|split; [|split; [|split; [|split]]]].
  - intros Ho Hc. apply step_isOpen_false in Hc.
    unfold step. rewrite commit_refs. unfold cooldownEffect.
    rewrite Ho, Hc. reflexivity.
  - intros Hb Ho. unfold step. rewrite commit_refs.
    assert (Hh : refs (handle now SafeToggleDrawer w)
                 = mkRefs true now (now + 10000 :: cooldownTimers (refs w))).
    { simpl. unfold safeToggleDrawer. now rewrite Hb, Ho. }
    split.
    + apply cooldownEffect_keeps. now rewrite Hh.
    + apply cooldownEffect_timers. rewrite Hh. simpl. auto.
  - intros email Hp. unfold step. rewrite commit_refs.
    assert (Hh : exists l, refs (handle now (SaveEmailSettled email true) w)
                           = mkRefs true now (now + 10000 :: l)).
    { simpl. rewrite Hp. simpl. eauto. }
    destruct Hh as (l & Hh). split.
    + apply cooldownEffect_keeps. now rewrite Hh.
    + apply cooldownEffect_timers. rewrite Hh. simpl. auto.
  - intros. apply intentEffect_cooldown.
  - intros Hc. unfold step. rewrite commit_calls.
    rewrite intentRuns_cooldown by now apply cooldownEffect_keeps.
    apply handle_autoOpenRequests.
  - intros Htr w'.
    destruct (run_coolInv now0 tr _ Htr Hm) as (Hc & _ & Ha).
    split; [exact Hc|]. split; [exact Ha|]. intros Hui.
    assert (Hf : isAutomaticOpen (drawer w') = false).
    { apply run_first_cooldown_flag with now0; auto. now rewrite mount_eq. }
    split; [exact Hf|].
    unfold origin. rewrite Hf. destruct (isOpen (drawer w')); discriminate.
Qed.

Lemma C10_cooldown_witness :
  let w' := run [(103000, ChatUpdate (Some Ready) Ready [signUpMessage]);
                 (104000, SafeToggleDrawer); (106000, SafeToggleDrawer);
                 (109999, ChatUpdate (Some Ready) Ready [signUpMessage])]
                (mount 100000 (Some Ready) sampleChat) in
  cooldownRef (refs w') = true /\ autoOpenRequests (calls w') = [].
Proof.
  intro w'.
  destruct (C10_cooldown 100000 (Some Ready) sampleChat
              [(103000, ChatUpdate (Some Ready) Ready [signUpMessage]);
               (104000, SafeToggleDrawer); (106000, SafeToggleDrawer);
               (109999, ChatUpdate (Some Ready) Ready [signUpMessage])]
              idleWorld 0 CloseDrawer)
    as (_ & _ & _ & _ & _ & _ & H).
  destruct (H eq_refl) as (H1 & H2 & _). split; assumption.
Defined.

(* ===================================================================== *)
(** ** Strings: containment and the email pattern *)
(* ===================================================================== *)

Lemma prefix_spec (needle s : string) :
  String.prefix needle s = true <-> exists post, s = (needle ++ post)%string.
Proof.
  revert s. induction needle as [|a needle IH]; intros s; simpl.
  - destruct s; split; eauto.
  - destruct s as [|b s]; simpl.
    + split; [discriminate | intros (post & E); discriminate].
    + destruct (ascii_dec a b) as [->|Hab].
      * rewrite IH. split; intros (post & E); exists post; congruence.
      * split; [discriminate | intros (post & E); congruence].
Qed.

Lemma includes_spec (s needle : string) :
  Js.includes s needle = true <->
  exists pre post, s = (pre ++ needle ++ post)%string.
Proof.
  induction s as [|c s IH]; cbn [Js.includes].
  - rewrite Bool.orb_false_r, prefix_spec. split.
    + intros (post & E). exists EmptyString, post. exact E.
    + intros (pre & post & E). destruct pre; [eauto | discriminate].
  - rewrite Bool.orb_true_iff, prefix_spec, IH. split.
    + intros [(post & E) | (pre & post & E)].
      * exists EmptyString, post. exact E.
      * exists (String c pre), post. simpl. now rewrite E.
    + intros (pre & post & E). destruct pre as [|c' pre]; simpl in E.
      * left. eauto.
      * right. exists pre, post. congruence.
Qed.

Lemma hasIntent_spec (text : string) :
  hasIntent text = true <-> containsKeyword text.
Proof.
  unfold hasIntent, containsKeyword. rewrite existsb_exists. split.
  - intros (kw & Hin & H). apply includes_spec in H as (pre & post & E).
    eauto.
  - intros (kw & pre & post & Hin & E). exists kw. split; auto.
    apply includes_spec. eauto.
Qed.

Lemma lastMessage_app (earlier : list Message) (m : Message) :
  lastMessage (earlier ++ [m])%list = Some m.
Proof.
  unfold lastMessage. rewrite map_app. simpl. apply last_last.
Qed.

Lemma lastMessage_spec (msgs : list Message) (m : Message) :
  lastMessage msgs = Some m <-> exists earlier, msgs = (earlier ++ [m])%list.
Proof.
  split.
  - intros H. destruct msgs as [|m0 msgs']; [discriminate|].
    destruct (@exists_last _ (m0 :: msgs')) as (earlier & m' & E);
      [discriminate|].
    rewrite E in *. rewrite lastMessage_app in H. injection H as ->. eauto.
  - intros (earlier & ->). apply lastMessage_app.
Qed.

Lemma matchPlus_spec (ex : ascii -> bool) (k : string -> bool) (s : string) :
  Js.matchPlus ex k s = true <->
  exists a rest,
    s = (a ++ rest)%string /\ a <> EmptyString /\
    allChars (fun c => negb (ex c)) a = true /\ k rest = true.
Proof.
  induction s as [|c s IH]; simpl.
  - split; [discriminate|].
    intros (a & rest & E & Ha & _). destruct a; [congruence | discriminate].
  - rewrite Bool.andb_true_iff, Bool.orb_true_iff, IH. split.
    + intros (Hc & [(a & rest & E & Ha & Hall & Hk) | Hk]).
      * exists (String c a), rest. simpl. rewrite Hc, Hall, E.
        repeat split; auto. discriminate.
      * exists (String c EmptyString), s. simpl. rewrite Hc.
        repeat split; auto. discriminate.
    + intros (a & rest & E & Ha & Hall & Hk).
      destruct a as [|c' a]; [congruence|].
      simpl in E, Hall. injection E as -> ->.
      apply Bool.andb_true_iff in Hall as [Hc Hall]. split; auto.
      destruct a as [|c'' a].
      * right. exact Hk.
      * left. exists (String c'' a), rest. repeat split; auto. discriminate.
Qed.

Lemma matchLit_spec (c : ascii) (p : list Js.atom) (s : string) :
  Js.matchAtoms (Js.Lit c :: p) s = true <->
  exists s', s = String c s' /\ Js.matchAtoms p s' = true.
Proof.
  simpl. destruct s as [|c' s].
  - split; [discriminate | intros (s' & E & _); discriminate].
  - rewrite Bool.andb_true_iff, Ascii.eqb_eq. split.
    + intros [-> H]. eauto.
    + intros (s' & E & H). injection E as -> ->. auto.
Qed.

Lemma append_empty_r (s : string) : (s ++ "")%string = s.
Proof. induction s; simpl; congruence. Qed.

(** The regular expression accepts exactly the strings of that shape. *)
Lemma emailRegex_shape (s : string) :
  Js.test emailRegex s = true <-> emailShape s.
Proof.
  unfold Js.test, emailRegex, emailShape, emailPart.
  change (Js.matchAtoms (Js.NotPlus spaceOrAt :: ?p))
    with (Js.matchPlus spaceOrAt (Js.matchAtoms p)).
  rewrite matchPlus_spec. split.
  - intros (a & r1 & -> & Ha & Halla & H).
    apply matchLit_spec in H as (r2 & -> & H).
    change (Js.matchAtoms (Js.NotPlus spaceOrAt :: ?p))
      with (Js.matchPlus spaceOrAt (Js.matchAtoms p)) in H.
    apply matchPlus_spec in H as (b & r3 & -> & Hb & Hallb & H).
    apply matchLit_spec in H as (r4 & -> & H).
    change (Js.matchAtoms (Js.NotPlus spaceOrAt :: ?p))
      with (Js.matchPlus spaceOrAt (Js.matchAtoms p)) in H.
    apply matchPlus_spec in H as (c & r5 & -> & Hc & Hallc & H).
    destruct r5; [|discriminate H].
    exists a, b, c. rewrite append_empty_r. repeat split; auto.
  - intros (a & b & c & (Ha & Halla) & (Hb & Hallb) & (Hc & Hallc) & ->).
    exists a, ("@" ++ b ++ "." ++ c)%string. repeat split; auto.
    apply matchLit_spec. exists (b ++ "." ++ c)%string. split; auto.
    change (Js.matchAtoms (Js.NotPlus spaceOrAt :: ?p))
      with (Js.matchPlus spaceOrAt (Js.matchAtoms p)).
    apply matchPlus_spec. exists b, ("." ++ c)%string. repeat split; auto.
    apply matchLit_spec. exists c. split; auto.
    change (Js.matchAtoms (Js.NotPlus spaceOrAt :: ?p))
      with (Js.matchPlus spaceOrAt (Js.matchAtoms p)).
    apply matchPlus_spec. exists c, EmptyString.
    rewrite append_empty_r. repeat split; auto.
Qed.

(* ===================================================================== *)
(** ** The controller: intent detection and email capture *)
(* ===================================================================== *)

Lemma intentEffect_spec (st : ChatStatus) (cd o b : bool) (msgs : list Message) :
  intentEffect st cd o b msgs = true <-> intentSpec st cd o b msgs.
Proof.
  unfold intentSpec. split.
  - intros H.
    assert (Hst : st = Ready \/ st = Error)
      by (destruct st; auto; discriminate H).
    assert (Hc : checkForRegistrationIntent cd o b msgs = true)
      by (destruct st; auto; discriminate H).
    clear H. unfold checkForRegistrationIntent in Hc.
    destruct cd; [discriminate|]. destruct o; [discriminate|]. simpl in Hc.
    destruct (lastMessage msgs) as [m|] eqn:El; [|discriminate].
    destruct (String.eqb (role m) "user") eqn:Er; [|discriminate].
    apply Bool.andb_true_iff in Hc as [Hc _].
    apply Bool.andb_true_iff in Hc as [Hi Hb].
    apply Bool.negb_true_iff in Hb. apply String.eqb_eq in Er.
    apply lastMessage_spec in El as (earlier & ->).
    apply hasIntent_spec in Hi.
    repeat split; auto. exists earlier, m. auto.
  - intros (Hst & -> & -> & -> & earlier & m & -> & Hr & Hk).
    apply hasIntent_spec in Hk.
    assert (Hc : checkForRegistrationIntent false false false
                   (earlier ++ [m])%list = true).
    { unfold checkForRegistrationIntent. simpl.
      rewrite lastMessage_app, Hr, Hk. reflexivity. }
    destruct Hst as [-> | ->]; exact Hc.
Qed.

Lemma intentRuns_chatUpdate (now : Z) (cs : option ChatStatus)
      (st : ChatStatus) (msgs : list Message) (w : World) :
  intentRuns now true w (handle now (ChatUpdate cs st msgs) w)
  = intentEffect st (cooldownRef (refs w)) (isOpen (drawer w))
                 (isAIWriting cs) msgs.
Proof.
  unfold intentRuns, intentDepsChanged, cooldownEffect. simpl.
  now rewrite Bool.eqb_reflx.
Qed.

Lemma intentEffect_signUp (earlier : list Message) :
  intentEffect Ready false false false (earlier ++ [signUpMessage])%list = true.
Proof.
  simpl. unfold checkForRegistrationIntent. simpl.
  rewrite lastMessage_app. reflexivity.
Qed.

Lemma lowerChar_upper (c : ascii) :
  65 <= Js.code c <= 90 -> Js.code (Js.lowerChar c) = Js.code c + 32.
Proof.
  intros H. unfold Js.lowerChar. cbv zeta.
  assert (E : (65 <=? Js.code c) && (Js.code c <=? 90) = true)
    by (apply Bool.andb_true_iff; split; apply Z.leb_le; lia).
  rewrite E. cbn [orb]. unfold Js.code at 1.
  rewrite nat_ascii_embedding by lia.
  rewrite Z2Nat.id; lia.
Qed.

Lemma lowerChar_other (c : ascii) :
  Js.code c < 65 \/ 90 < Js.code c < 192 -> Js.lowerChar c = c.
Proof.
  intros H. unfold Js.lowerChar. cbv zeta.
  assert (E1 : (65 <=? Js.code c) && (Js.code c <=? 90) = false).
  { apply Bool.andb_false_iff.
    destruct H; [left | right]; apply Z.leb_gt; lia. }
  assert (E2 : (192 <=? Js.code c) = false) by (apply Z.leb_gt; lia).
  now rewrite E1, E2.
Qed.

Lemma intentEffect_anyCase (earlier : list Message) (text : string) :
  Js.toLowerCase text = "i'd like to sign up"%string ->
  intentEffect Ready false false false
               (earlier ++ [mkMessage "user" text])%list = true.
Proof.
  intros H. simpl. unfold checkForRegistrationIntent. simpl.
  rewrite lastMessage_app. simpl. rewrite H. reflexivity.
Qed.

(** C6. The intent effect asks for the drawer exactly when the turn is
    complete (status ready or error), the cooldown flag is clear, the drawer
    is closed, the assistant is idle, and the most recent message is a user
    message whose lower-cased content contains one of the nine keywords;
    the request is [openDrawer(true)]. With "I'd like to sign up" as the last
    user message, status ready, drawer closed and no cooldown left (flag
    clear, last close at least 2000 ms old), the drawer opens with origin
    automatic and its auto-close is armed; so it does when the message is
    written in any other mix of cases. Lower-casing is what makes the
    difference: it moves A-Z onto a-z and leaves the other characters below
    U+00C0 alone, and "I'D LIKE TO SIGN UP", which contains no keyword as it
    stands, contains one once lower-cased. *)
Theorem C6_intent_detection :
  forall (st : ChatStatus) (cd o b : bool) (msgs : list Message)
         (w : World) (now : Z) (cs : option ChatStatus)
         (earlier : list Message) (text : string),
    (intentEffect st cd o b msgs = true <-> intentSpec st cd o b msgs) /\
    registrationKeywords
    = ["register"; "signup"; "sign up"; "subscribe"; "account";
       "create account"; "inscrire"; "m'inscrire"; "inscription"]%string /\
    (let requested :=
       intentEffect st (cooldownRef (refs w)) (isOpen (drawer w))
                    (isAIWriting cs) msgs in
     let w' := step now (ChatUpdate cs st msgs) w in
     autoOpenRequests (calls w')
     = (if requested then now :: autoOpenRequests (calls w)
        else autoOpenRequests (calls w)) /\
     drawer w'
     = (if requested
        then effects now (drawer w) (openDrawer false true now (drawer w))
        else drawer w)) /\
    (isOpen (drawer w) = false -> cooldownRef (refs w) = false ->
     isAIWriting cs = false -> 2000 <= now - lastCloseTimeRef (drawer w) ->
     let w' := step now (ChatUpdate cs Ready (earlier ++ [signUpMessage])) w in
     isOpen (drawer w') = true /\ origin (drawer w') = Automatic /\
     autoCloseTimer (drawer w') = Some (now + 8000) /\
     autoOpenRequests (calls w') = now :: autoOpenRequests (calls w)) /\
    (Js.toLowerCase text = "i'd like to sign up"%string ->
     isOpen (drawer w) = false -> cooldownRef (refs w) = false ->
     isAIWriting cs = false -> 2000 <= now - lastCloseTimeRef (drawer w) ->
     let w' := step now (ChatUpdate cs Ready
                           (earlier ++ [mkMessage "user" text])) w in
     isOpen (drawer w') = true /\ origin (drawer w') = Automatic /\
     autoCloseTimer (drawer w') = Some (now + 8000) /\
     autoOpenRequests (calls w') = now :: autoOpenRequests (calls w)) /\
    (Js.toLowerCase "I'D LIKE TO SIGN UP" = "i'd like to sign up"%string /\
     hasIntent "I'D LIKE TO SIGN UP" = false /\
     hasIntent (Js.toLowerCase "I'D LIKE TO SIGN UP") = true /\
     Js.toLowerCase "Create ACCOUNT, Inscription" = "create account, inscription"%string) /\
    (forall c, 65 <= Js.code c <= 90 ->
               Js.code (Js.lowerChar c) = Js.code c + 32) /\
    (forall c, Js.code c < 65 \/ 90 < Js.code c < 192 -> Js.lowerChar c = c).
Proof.
  intros st cd o b msgs w now cs earlier text.
  assert (General : forall st msgs,
    autoOpenRequests (calls (step now (ChatUpdate cs st msgs) w))
    = (if intentEffect st (cooldownRef (refs w)) (isOpen (drawer w))
                       (isAIWriting cs) msgs
       then now :: autoOpenRequests (calls w)
       else autoOpenRequests (calls w)) /\
    drawer (step now (ChatUpdate cs st msgs) w)
    = (if intentEffect st (cooldownRef (refs w)) (isOpen (drawer w))
                       (isAIWriting cs) msgs
       then effects now (drawer w) (openDrawer false true now (drawer w))
       else drawer w)).
  { intros st' msgs'. unfold step.
    rewrite commit_calls, commit_drawer. cbv zeta.
    cbn [isChatUpdate]. rewrite intentRuns_chatUpdate.
    cbn [handle drawer calls]. rewrite effects_same.
    destruct (intentEffect _ _ _ _ _); auto. }
  assert (Scenario : forall msgs',
    intentEffect Ready false false false msgs' = true ->
    isOpen (drawer w) = false -> cooldownRef (refs w) = false ->
    isAIWriting cs = false -> 2000 <= now - lastCloseTimeRef (drawer w) ->
    let w' := step now (ChatUpdate cs Ready msgs') w in
    isOpen (drawer w') = true /\ origin (drawer w') = Automatic /\
    autoCloseTimer (drawer w') = Some (now + 8000) /\
    autoOpenRequests (calls w') = now :: autoOpenRequests (calls w)).
  { intros msgs' Hi Ho Hc Hb Ht w'.
    destruct (General Ready msgs') as [Ha Hd].
    fold w' in Ha, Hd.
    rewrite Ho, Hc, Hb, Hi in Ha, Hd.
    rewrite (openDrawer_accepted true now (drawer w) Ht) in Hd.
    destruct (effects_flags now (drawer w)
                (setIsAutomaticOpen true (setIsOpen true (drawer w))))
      as (Hf & _).
    rewrite <- Hd in Hf. rewrite (origin_flags _ _ Hf), Ha.
    destruct Hf as (-> & _).
    rewrite Hd, effects_autoCloseTimer. simpl. rewrite Ho. simpl.
    repeat split; reflexivity. }
  split; [apply intentEffect_spec|]. split; [reflexivity|].
  split; [apply General|].
  split; [apply Scenario, intentEffect_signUp|].
  split; [intros Hl; apply Scenario, intentEffect_anyCase, Hl|].
  split; [repeat split; reflexivity|].
  split; [apply lowerChar_upper | apply lowerChar_other].
Qed.

Lemma C6_intent_detection_witness :
  let w' := step 120000
                 (ChatUpdate (Some Ready) Ready
                             [mkMessage "user" "I'D LIKE TO SIGN UP"])
                 idleWorld in
  isOpen (drawer w') = true /\ origin (drawer w') = Automatic /\
  autoCloseTimer (drawer w') = Some (120000 + 8000) /\
  autoOpenRequests (calls w') = [120000] /\
  Js.code (Js.lowerChar "S") = 83 + 32.
Proof.
  intro w'.
  destruct (C6_intent_detection Ready false false false [signUpMessage]
              idleWorld 120000 (Some Ready) [] "I'D LIKE TO SIGN UP")
    as (_ & _ & _ & _ & H & _ & Hup & _).
  destruct H as (H1 & H2 & H3 & H4);
    [reflexivity | reflexivity | reflexivity | reflexivity
     | vm_compute; discriminate |].
  fold w' in H1, H2, H3, H4.
  split; [exact H1|]. split; [exact H2|]. split; [exact H3|].
  split; [exact H4|].
  apply (Hup "S"%char). vm_compute. split; discriminate.
Defined.

Lemma memStr_last (x : string) (l : list string) :
  memStr x (l ++ [x]) = true.
Proof.
  unfold memStr. rewrite existsb_app. simpl.
  now rewrite String.eqb_refl, Bool.orb_true_r.
Qed.

(** What a successful [saveEmail] leads to, in whatever state it settles. *)
Lemma step_save_succeeded (now : Z) (email : string) (w : World) :
  memStr email (pendingSaves (calls w)) = true ->
  let w2 := step now (SaveEmailSettled email true) w in
  registrationSuccess (drawer w2) = true /\
  isOpen (drawer w2) = false /\
  isWaitingForEmail (drawer w2) = false /\
  lastCloseTimeRef (drawer w2) = now /\
  input (chat w2) = EmptyString /\
  cooldownRef (refs w2) = true /\
  In (now + 10000) (cooldownTimers (refs w2)) /\
  submitted (calls w2) = submitted (calls w) /\
  consoleErrors (calls w2) = consoleErrors (calls w).
Proof.
  intros Hp. cbv zeta.
  set (cur := handle now (SaveEmailSettled email true) w).
  change (step now (SaveEmailSettled email true) w)
    with (commit now false w cur).
  assert (Hd : drawer cur
               = setIsWaitingForEmail false
                   (closeDrawer now (setRegistrationSuccess true (drawer w))))
    by (unfold cur; simpl; now rewrite Hp).
  assert (Hr : refs cur = mkRefs true now (now + 10000 :: cooldownTimers (refs w)))
    by (unfold cur; simpl; now rewrite Hp).
  assert (Hi : input (chat cur) = EmptyString)
    by (unfold cur; simpl; now rewrite Hp).
  assert (Hs : submitted (calls cur) = submitted (calls w) /\
               consoleErrors (calls cur) = consoleErrors (calls w))
    by (unfold cur; simpl; now rewrite Hp).
  assert (Hc : cooldownRef (refs (cooldownEffect now w cur)) = true)
    by (apply cooldownEffect_keeps; now rewrite Hr).
  assert (Hd2 : drawer (commit now false w cur)
                = effects now (drawer w) (drawer cur))
    by (apply (step_drawer_cooldown now (SaveEmailSettled email true) w);
        exact Hc).
  destruct (effects_flags now (drawer w) (drawer cur))
    as ((Ho & Hw & _ & Hsu) & Hl & _).
  rewrite Hd2, Ho, Hw, Hsu, Hl, Hd.
  destruct (commit_chat now false w cur) as [-> _].
  rewrite commit_refs, commit_calls, (intentRuns_cooldown _ _ _ _ Hc).
  repeat split; try reflexivity; try tauto.
  apply cooldownEffect_timers. rewrite Hr. simpl. auto.
Qed.

(** C7. While the email sub-mode is on, submitting a text that matches the
    email pattern hands it to [saveEmail] and sends no chat message; when
    the call succeeds, the success sub-mode is set, the drawer is closed,
    the email sub-mode is left, the text field is emptied and the cooldown
    is armed. The pattern accepts exactly the strings made of a local part,
    [@] and a domain with a dot. *)
Theorem C7_email_submission_succeeds :
  forall (w : World) (now now' : Z) (s : string),
    (Js.test emailRegex s = true <-> emailShape s) /\
    (isWaitingForEmail (drawer w) = true ->
     Js.test emailRegex (input (chat w)) = true ->
     let email := input (chat w) in
     let w1 := step now EmailSubmit w in
     let w2 := step now' (SaveEmailSettled email true) w1 in
     drawer w1 = drawer w /\ refs w1 = refs w /\ chat w1 = chat w /\
     pendingSaves (calls w1) = (pendingSaves (calls w) ++ [email])%list /\
     submitted (calls w1) = submitted (calls w) /\
     registrationSuccess (drawer w2) = true /\
     isOpen (drawer w2) = false /\
     isWaitingForEmail (drawer w2) = false /\
     lastCloseTimeRef (drawer w2) = now' /\
     input (chat w2) = EmptyString /\
     cooldownRef (refs w2) = true /\
     In (now' + 10000) (cooldownTimers (refs w2)) /\
     submitted (calls w2) = submitted (calls w)) /\
    (forall email, memStr email (pendingSaves (calls w)) = true ->
     let w2 := step now' (SaveEmailSettled email true) w in
     registrationSuccess (drawer w2) = true /\
     isOpen (drawer w2) = false /\
     isWaitingForEmail (drawer w2) = false /\
     input (chat w2) = EmptyString /\
     cooldownRef (refs w2) = true /\
     submitted (calls w2) = submitted (calls w)).
Proof.
  intros w now now' s. split; [apply emailRegex_shape|]. split.
  - intros Hw Ht email w1 w2.
    assert (H1 : w1 = handle now EmailSubmit w)
      by (unfold w1, step; now apply commit_quiet; simpl;
          unfold handleEmailSubmit; rewrite Hw, Ht).
    assert (Hh : handle now EmailSubmit w
                 = setCalls (mkCalls (pendingSaves (calls w) ++ [email])
                                     (submitted (calls w))
                                     (consoleErrors (calls w))
                                     (autoOpenRequests (calls w))) w)
      by (simpl; unfold handleEmailSubmit; now rewrite Hw, Ht).
    rewrite Hh in H1.
    assert (Hp : memStr email (pendingSaves (calls w1)) = true)
      by (rewrite H1; simpl; apply memStr_last).
    destruct (step_save_succeeded now' email w1 Hp)
      as (A1 & A2 & A3 & A4 & A5 & A6 & A7 & A8 & _).
    fold w2 in A1, A2, A3, A4, A5, A6, A7, A8.
    clearbody w2. clearbody w1.
    rewrite A1, A2, A3, A4, A5, A6, A8. subst w1. simpl.
    repeat split; auto.
  - intros email Hp w2.
    destruct (step_save_succeeded now' email w Hp)
      as (A1 & A2 & A3 & _ & A5 & A6 & _ & A8 & _).
    repeat split; assumption.
Qed.

Lemma C7_email_submission_succeeds_witness :
  let w := run (firstn 4 lateEmailTrace)
               (mount 100000 (Some Ready) sampleChat) in
  let w2 := step 126200 (SaveEmailSettled "a@b.co" true)
                 (step 126000 EmailSubmit w) in
  registrationSuccess (drawer w2) = true /\ isOpen (drawer w2) = false /\
  isWaitingForEmail (drawer w2) = false /\ input (chat w2) = EmptyString.
Proof.
  intros w w2.
  destruct (C7_email_submission_succeeds w 126000 126200 "a@b.co")
    as (_ & H & _).
  destruct (H eq_refl eq_refl)
    as (_ & _ & _ & _ & _ & H1 & H2 & H3 & _ & H4 & _).
  repeat split; assumption.
Defined.

(** C8. While the email sub-mode is on, a text that does not match the
    pattern goes to the chat's own submit; so does the text of a
    [saveEmail] call that fails, after one [console.error]. Neither writes
    anything else: the drawer state, [isWaitingForEmail] included, and the
    cooldown are as before. *)
Theorem C8_email_submission_falls_through :
  forall (w : World) (now now' : Z),
    (isWaitingForEmail (drawer w) = true ->
     Js.test emailRegex (input (chat w)) = false ->
     let w1 := step now EmailSubmit w in
     drawer w1 = drawer w /\ refs w1 = refs w /\ chat w1 = chat w /\
     isWaitingForEmail (drawer w1) = true /\
     submitted (calls w1) = input (chat w) :: submitted (calls w) /\
     pendingSaves (calls w1) = pendingSaves (calls w) /\
     consoleErrors (calls w1) = consoleErrors (calls w)) /\
    (forall email, memStr email (pendingSaves (calls w)) = true ->
     let w2 := step now' (SaveEmailSettled email false) w in
     drawer w2 = drawer w /\ refs w2 = refs w /\ chat w2 = chat w /\
     submitted (calls w2) = email :: submitted (calls w) /\
     consoleErrors (calls w2) = S (consoleErrors (calls w))) /\
    (isWaitingForEmail (drawer w) = true ->
     Js.test emailRegex (input (chat w)) = true ->
     let email := input (chat w) in
     let w2 := step now' (SaveEmailSettled email false)
                    (step now EmailSubmit w) in
     drawer w2 = drawer w /\ refs w2 = refs w /\ chat w2 = chat w /\
     isWaitingForEmail (drawer w2) = true /\
     submitted (calls w2) = email :: submitted (calls w) /\
     consoleErrors (calls w2) = S (consoleErrors (calls w))).
Proof.
  intros w now now'.
  assert (Failed : forall w0 email,
            memStr email (pendingSaves (calls w0)) = true ->
            let w2 := step now' (SaveEmailSettled email false) w0 in
            drawer w2 = drawer w0 /\ refs w2 = refs w0 /\ chat w2 = chat w0 /\
            submitted (calls w2) = email :: submitted (calls w0) /\
            consoleErrors (calls w2) = S (consoleErrors (calls w0))).
  { intros w0 email Hp w2.
    assert (E : w2 = handle now' (SaveEmailSettled email false) w0)
      by (unfold w2, step; apply commit_quiet; simpl; now rewrite Hp).
    rewrite E. simpl. rewrite Hp. simpl. repeat split; auto. }
  split; [|split].
  - intros Hw Ht w1.
    assert (E : w1 = handle now EmailSubmit w)
      by (unfold w1, step; apply commit_quiet; simpl;
          unfold handleEmailSubmit; now rewrite Hw, Ht).
    rewrite E. simpl. unfold handleEmailSubmit. rewrite Hw, Ht. simpl.
    repeat split; auto.
  - apply Failed.
  - intros Hw Ht email w2.
    assert (E : step now EmailSubmit w
                = setCalls (mkCalls (pendingSaves (calls w) ++ [email])
                                    (submitted (calls w))
                                    (consoleErrors (calls w))
                                    (autoOpenRequests (calls w))) w).
    { unfold step.
      rewrite commit_quiet; simpl; unfold handleEmailSubmit;
        now rewrite Hw, Ht. }
    destruct (Failed (step now EmailSubmit w) email)
      as (A1 & A2 & A3 & A4 & A5).
    { rewrite E. simpl. apply memStr_last. }
    fold w2 in A1, A2, A3, A4, A5.
    rewrite A1, A2, A3, A4, A5, E. simpl. repeat split; auto.
Qed.

Lemma C8_email_submission_falls_through_witness :
  let w := step 125500 (InputChange "not-an-email")
                (run (firstn 4 lateEmailTrace)
                     (mount 100000 (Some Ready) sampleChat)) in
  let w1 := step 126000 EmailSubmit w in
  isWaitingForEmail (drawer w1) = true /\
  submitted (calls w1) = ["not-an-email"%string].
Proof.
  intros w w1.
  destruct (C8_email_submission_falls_through w 126000 126200) as (H & _).
  destruct (H eq_refl eq_refl) as (_ & _ & _ & H1 & H2 & _).
  split; assumption.
Defined.

(** The store's own window still applies to the request of the intent
    effect: 600 ms after a close, with the cooldown flag already cleared by
    an older timeout, the request is made and the drawer stays closed. *)
Lemma intent_request_within_store_window :
  let w := run [(108000, SafeToggleDrawer); (109500, SafeToggleDrawer);
                (110000, CooldownFire 110000)]
               (mount 100000 (Some Ready) sampleChat) in
  let w' := step 110100 (ChatUpdate (Some Ready) Ready [signUpMessage]) w in
  isOpen (drawer w) = false /\ cooldownRef (refs w) = false /\
  lastCloseTimeRef (drawer w) = 109500 /\
  autoOpenRequests (calls w') = [110100] /\ isOpen (drawer w') = false.
Proof. vm_compute. repeat split; reflexivity. Qed.

(* ===================================================================== *)
(** ** Further properties of the store *)
(* ===================================================================== *)

(** X1. In every state reached from the mount, the auto-close timeout is
    pending exactly while the drawer is open automatically, and the
    success-reset timeout exactly while the drawer is closed with the
    success flag set: the cleanups of the two effects leave no stale
    timeout behind. *)
Theorem X1_effect_timeouts_follow_state :
  forall (now0 : Z) (cs0 : option ChatStatus) (c0 : Chat)
         (tr : list (Z * Event)),
    let d := drawer (run tr (mount now0 cs0 c0)) in
    (autoCloseTimer d <> None <->
     isOpen d = true /\ isAutomaticOpen d = true) /\
    (successResetTimer d <> None <->
     isOpen d = false /\ registrationSuccess d = true).
Proof.
  intros now0 cs0 c0 tr d.
  destruct (reachable_timersOk now0 cs0 c0 tr) as [H1 H2].
  fold d in H1, H2. split.
  - rewrite <- Bool.andb_true_iff, <- H1.
    destruct (autoCloseTimer d); simpl; split; congruence.
  - rewrite <- (Bool.negb_true_iff (isOpen d)), <- Bool.andb_true_iff, <- H2.
    destruct (successResetTimer d); simpl; split; congruence.
Qed.

Lemma handle_closedSince (since now : Z) (e : Event) (w : World) :
  since <= now -> now < since + 2000 ->
  closedSince since w -> closedSince since (handle now e w).
Proof.
  intros Hlo Hhi [Ho Hl]. unfold closedSince.
  assert (Hob : forall b a, openDrawer b a now (drawer w) = drawer w)
    by (intros; apply openDrawer_blocked; right; lia).
  assert (Htg : forall b, isOpen (toggleDrawer b now (drawer w)) = false /\
                          since <= lastCloseTimeRef (toggleDrawer b now (drawer w))).
  { intros b. unfold toggleDrawer. rewrite Ho, Hob.
    destruct b; simpl; auto. }
  destruct e; simpl; auto; try (rewrite Hob; auto; fail);
    unfold safeToggleDrawer, handleEmailSubmit, handleEmailSubmitResume;
    repeat break_if; simpl; auto; apply Htg.
Qed.

Lemma step_closedSince (since now : Z) (e : Event) (w : World) :
  since <= now -> now < since + 2000 ->
  closedSince since w -> closedSince since (step now e w).
Proof.
  intros Hlo Hhi H.
  destruct (handle_closedSince since now e w Hlo Hhi H) as [Ho Hl].
  unfold closedSince.
  rewrite step_drawer_recent_close by lia.
  destruct (effects_flags now (drawer w) (drawer (handle now e w)))
    as ((-> & _) & -> & _). auto.
Qed.

Lemma run_closedSince (since : Z) (tr : list (Z * Event)) (w : World) :
  timesWithin since (since + 2000) tr = true ->
  closedSince since w -> closedSince since (run tr w).
Proof.
  revert w. induction tr as [|[now e] tr IH]; intros w Htr H; simpl; auto.
  simpl in Htr. apply Bool.andb_true_iff in Htr as [Hn Htr].
  apply Bool.andb_true_iff in Hn as [Hlo Hhi].
  apply Z.leb_le in Hlo. apply Z.ltb_lt in Hhi.
  apply IH; auto. now apply step_closedSince.
Qed.

Lemma step_close_closedSince (now : Z) (w : World) :
  closedSince now (step now CloseDrawer w).
Proof.
  unfold closedSince.
  rewrite step_drawer_recent_close by (simpl; lia).
  destruct (effects_flags now (drawer w)
              (drawer (handle now CloseDrawer w)))
    as ((-> & _) & -> & _).
  simpl. split; [reflexivity | lia].
Qed.

(** X2. Close wins for two seconds: after [closeDrawer] at [t], whatever
    happens in the 2000 ms that follow (open requests of either origin,
    toggles, the intent effect, timeouts, further closes) the drawer stays
    closed, and nothing is on the screen. *)
Theorem X2_closed_for_two_seconds :
  forall (w : World) (t : Z) (tr : list (Z * Event)),
    timesWithin t (t + 2000) tr = true ->
    let w' := run tr (step t CloseDrawer w) in
    isOpen (drawer w') = false /\ rendered w' = None.
Proof.
  intros w t tr Htr w'.
  destruct (run_closedSince t tr _ Htr (step_close_closedSince t w)) as [Ho _].
  fold w' in Ho. split; auto.
  unfold rendered, drawerIsVisible. now rewrite Ho.
Qed.

Lemma X2_closed_for_two_seconds_witness :
  isOpen (drawer (run [(130500, OpenDrawer false); (131000, SafeToggleDrawer);
                       (131999, ChatUpdate (Some Ready) Ready [signUpMessage])]
                      (step 130000 CloseDrawer idleWorld))) = false.
Proof.
  apply (X2_closed_for_two_seconds idleWorld 130000
           [(130500, OpenDrawer false); (131000, SafeToggleDrawer);
            (131999, ChatUpdate (Some Ready) Ready [signUpMessage])]).
  reflexivity.
Defined.

(** X3. After a successful email submission at [t] the success flag is set
    with the drawer already closed: its reset is due at [t + 500], and for
    2000 ms the drawer cannot come back. The thank-you content is therefore
    not on the screen at any moment of those two seconds. *)
Theorem X3_thank_you_not_shown :
  forall (now0 : Z) (cs0 : option ChatStatus) (c0 : Chat)
         (tr0 : list (Z * Event)) (email : string) (t : Z)
         (tr : list (Z * Event)),
    let w := run tr0 (mount now0 cs0 c0) in
    let w2 := step t (SaveEmailSettled email true) w in
    memStr email (pendingSaves (calls w)) = true ->
    registrationSuccess (drawer w) = false ->
    timesWithin t (t + 2000) tr = true ->
    registrationSuccess (drawer w2) = true /\
    successResetTimer (drawer w2) = Some (t + 500) /\
    isOpen (drawer (run tr w2)) = false /\
    rendered (run tr w2) = None.
Proof.
  intros now0 cs0 c0 tr0 email t tr w w2 Hp Hs Htr.
  destruct (step_save_succeeded t email w Hp)
    as (A1 & A2 & _ & A4 & _ & A6 & _).
  fold w2 in A1, A2, A4, A6.
  assert (Hc : closedSince t w2) by (split; [exact A2 | lia]).
  destruct (run_closedSince t tr w2 Htr Hc) as [Ho _].
  split; [exact A1|]. split.
  - unfold w2.
    rewrite step_drawer_cooldown.
    + rewrite effects_successResetTimer. simpl. rewrite Hp. simpl.
      rewrite Hs. rewrite Bool.andb_false_r. reflexivity.
    + apply cooldownEffect_keeps. simpl. now rewrite Hp.
  - split; auto. unfold rendered, drawerIsVisible. now rewrite Ho.
Qed.

Lemma X3_thank_you_not_shown_witness :
  let w := run (firstn 6 lateEmailTrace)
               (mount 100000 (Some Ready) sampleChat) in
  let w2 := step 140200 (SaveEmailSettled "a@b.co" true) w in
  successResetTimer (drawer w2) = Some (140200 + 500) /\
  rendered (run [(140700, SafeToggleDrawer); (142199, OpenDrawer false)] w2)
  = None.
Proof.
  intros w w2.
  destruct (X3_thank_you_not_shown 100000 (Some Ready) sampleChat
              (firstn 6 lateEmailTrace) "a@b.co" 140200
              [(140700, SafeToggleDrawer); (142199, OpenDrawer false)])
    as (_ & H1 & _ & H2); try reflexivity.
  split; assumption.
Defined.

Lemma origin_closed (d : State) : isOpen d = false -> origin d = NoOrigin.
Proof. unfold origin. now intros ->. Qed.

(** X4. [toggleDrawer] closes an open drawer whether the assistant is busy
    or not, leaves a closed drawer alone while the assistant is busy, and
    never leaves the drawer open automatically: after the whole step the
    origin is manual or none. *)
Theorem X4_toggle :
  forall (w : World) (now : Z),
    let w' := step now ToggleDrawer w in
    origin (drawer w') <> Automatic /\
    (isOpen (drawer w) = true ->
     isOpen (drawer w') = false /\ lastCloseTimeRef (drawer w') = now) /\
    (isOpen (drawer w) = false -> busy w = true -> w' = w) /\
    (isOpen (drawer w) = false -> busy w = false ->
     2000 <= now - lastCloseTimeRef (drawer w) ->
     isOpen (drawer w') = true /\ origin (drawer w') = Manual).
Proof.
  intros w now w'.
  assert (Hopen : isOpen (drawer w) = true ->
                  isOpen (drawer w') = false /\
                  lastCloseTimeRef (drawer w') = now).
  { intros Ho.
    assert (Hh : drawer (handle now ToggleDrawer w)
                 = closeDrawer now (drawer w)).
    { simpl. unfold toggleDrawer. rewrite Ho. now destruct (busy w). }
    unfold w'. rewrite step_drawer_recent_close by (rewrite Hh; simpl; lia).
    destruct (effects_flags now (drawer w) (drawer (handle now ToggleDrawer w)))
      as ((-> & _) & -> & _).
    rewrite Hh. auto. }
  assert (Hbusy : isOpen (drawer w) = false -> busy w = true -> w' = w).
  { intros Ho Hb. unfold w', step. simpl.
    unfold toggleDrawer. rewrite Ho, Hb. simpl.
    rewrite setDrawer_same. apply commit_same. }
  assert (Hidle : isOpen (drawer w) = false -> busy w = false ->
                  2000 <= now - lastCloseTimeRef (drawer w) ->
                  isOpen (drawer w') = true /\ origin (drawer w') = Manual).
  { intros Ho Hb Ht.
    assert (Hh : drawer (handle now ToggleDrawer w)
                 = setIsAutomaticOpen false (setIsOpen true (drawer w))).
    { simpl. unfold toggleDrawer. rewrite Ho, Hb. simpl.
      now apply openDrawer_accepted. }
    unfold w'. rewrite step_drawer_open by now rewrite Hh.
    destruct (effects_flags now (drawer w) (drawer (handle now ToggleDrawer w)))
      as (Hf & _).
    rewrite (origin_flags _ _ Hf). destruct Hf as (-> & _).
    rewrite Hh. auto. }
  split; [|auto].
  destruct (isOpen (drawer w)) eqn:Ho.
  - destruct (Hopen eq_refl) as [Hc _].
    rewrite (origin_closed _ Hc). discriminate.
  - destruct (busy w) eqn:Hb.
    + rewrite (Hbusy eq_refl eq_refl), (origin_closed _ Ho). discriminate.
    + destruct (Z.lt_ge_cases (now - lastCloseTimeRef (drawer w)) 2000)
        as [Hlt | Hge].
      * assert (E : w' = w).
        { unfold w', step. simpl. unfold toggleDrawer. rewrite Ho, Hb. simpl.
          rewrite openDrawer_blocked by auto.
          rewrite setDrawer_same. apply commit_same. }
        rewrite E, (origin_closed _ Ho). discriminate.
      * destruct (Hidle eq_refl eq_refl Hge) as [_ ->]. discriminate.
Qed.

Lemma X4_toggle_witness :
  let w := step 120000 (ChatUpdate (Some Ready) Ready [signUpMessage])
                idleWorld in
  let w' := step 121000 ToggleDrawer w in
  origin (drawer w) = Automatic /\
  isOpen (drawer w') = false /\ lastCloseTimeRef (drawer w') = 121000.
Proof.
  intros w w'. split; [reflexivity|].
  destruct (X4_toggle w 121000) as (_ & H & _).
  apply H. reflexivity.
Defined.

(** X5. The toggle button does nothing at all while the assistant is busy,
    not even on an open drawer: the branch of [toggleDrawer] that closes an
    open drawer under a busy assistant is out of its reach. *)
Theorem X5_safe_toggle_while_busy :
  forall (w : World) (now : Z),
    busy w = true ->
    step now SafeToggleDrawer w = w /\
    (isOpen (drawer w) = true ->
     isOpen (toggleDrawer (busy w) now (drawer w)) = false).
Proof.
  intros w now Hb. split.
  - unfold step. simpl. unfold safeToggleDrawer. rewrite Hb. simpl.
    apply commit_same.
  - intros Ho. unfold toggleDrawer. rewrite Hb, Ho. reflexivity.
Qed.

Lemma X5_safe_toggle_while_busy_witness :
  let w := step 121000 (ChatUpdate (Some Streaming) Streaming [signUpMessage])
                (step 120000 (OpenDrawer false) idleWorld) in
  isOpen (drawer w) = true /\ step 122000 SafeToggleDrawer w = w.
Proof.
  intro w. split; [reflexivity|].
  apply (X5_safe_toggle_while_busy w 122000). reflexivity.
Defined.

(** X6. A press on the toggle button that comes less than 2000 ms after a
    close does not open the drawer, and arms the cooldown all the same: the
    refused manual open still keeps intent detection quiet for 10 s. *)
Theorem X6_refused_toggle_arms_cooldown :
  forall (w : World) (now : Z),
    busy w = false -> isOpen (drawer w) = false ->
    now - lastCloseTimeRef (drawer w) < 2000 ->
    let w' := step now SafeToggleDrawer w in
    drawer w' = drawer w /\
    refs w' = mkRefs true now (now + 10000 :: cooldownTimers (refs w)) /\
    autoOpenRequests (calls w') = autoOpenRequests (calls w).
Proof.
  intros w now Hb Ho Ht w'.
  assert (Hh : handle now SafeToggleDrawer w = armCooldown now w).
  { simpl. unfold safeToggleDrawer, toggleDrawer. rewrite Hb, Ho. simpl.
    rewrite openDrawer_blocked by auto. now rewrite setDrawer_same. }
  assert (E : w' = armCooldown now w).
  { unfold w', step. rewrite Hh. now apply commit_quiet. }
  rewrite E. repeat split; reflexivity.
Qed.

Lemma X6_refused_toggle_arms_cooldown_witness :
  let w := run [(130000, CloseDrawer); (140000, CooldownFire 140000)]
               idleWorld in
  let w' := step 140500 SafeToggleDrawer
                 (step 140400 CloseDrawer w) in
  isOpen (drawer w') = false /\ cooldownRef (refs w') = true.
Proof.
  intros w w'.
  destruct (X6_refused_toggle_arms_cooldown
              (step 140400 CloseDrawer w) 140500) as (H1 & H2 & _);
    try reflexivity.
  fold w' in H1, H2. rewrite H1, H2. split; reflexivity.
Defined.

(** X7. The 10 s timeouts of the cooldown are never cleared, and each of
    them clears the flag when it runs, however recently the flag was armed
    again: the cooldown that follows a close lasts 10 s only if no older
    timeout is still pending. *)
Theorem X7_stale_timeout_clears_cooldown :
  forall (w : World) (now due : Z),
    In due (cooldownTimers (refs w)) -> due <= now ->
    let w' := step now (CooldownFire due) w in
    cooldownRef (refs w') = false /\
    lastOpenTimeRef (refs w') = lastOpenTimeRef (refs w) /\
    drawer w' = drawer w.
Proof.
  intros w now due Hin Hle w'.
  assert (Hh : handle now (CooldownFire due) w
               = setRefs (mkRefs false (lastOpenTimeRef (refs w))
                                 (removeOne Z.eqb due (cooldownTimers (refs w)))) w).
  { simpl. rewrite (In_memZ _ _ Hin). apply Z.leb_le in Hle.
    now rewrite Hle. }
  assert (E : w' = handle now (CooldownFire due) w).
  { unfold w', step. apply commit_quiet. now rewrite Hh. }
  rewrite E, Hh. repeat split; reflexivity.
Qed.

Lemma X7_stale_timeout_clears_cooldown_witness :
  let w := run staleTimerTrace (mount 100000 (Some Ready) sampleChat) in
  let w' := step 110000 (CooldownFire 110000) w in
  cooldownRef (refs w) = true /\ lastOpenTimeRef (refs w) = 109500 /\
  cooldownRef (refs w') = false /\ lastOpenTimeRef (refs w') = 109500.
Proof.
  intros w w'.
  destruct (X7_stale_timeout_clears_cooldown w 110000 110000) as (H1 & H2 & _).
  - vm_compute. auto.
  - vm_compute. discriminate.
  - fold w' in H1, H2. rewrite H1, H2. repeat split; reflexivity.
Defined.

(* ===================================================================== *)
(** ** Further properties of the controller *)
(* ===================================================================== *)

Lemma append_assoc3 (a b c : string) :
  ((a ++ b) ++ c)%string = (a ++ b ++ c)%string.
Proof. induction a; simpl; congruence. Qed.

Lemma includes_trans (s mid needle : string) :
  Js.includes mid needle = true -> Js.includes s mid = true ->
  Js.includes s needle = true.
Proof.
  rewrite !includes_spec.
  intros (p & q & ->) (pre & post & ->).
  exists (pre ++ p)%string, (q ++ post)%string.
  now rewrite !append_assoc3.
Qed.

(** X8. Two of the nine keywords can never decide: every text that contains
    "create account" contains "account", and every text that contains
    "m'inscrire" contains "inscrire". Intent detection with the seven other
    keywords gives the same answer on every text. *)
Theorem X8_redundant_keywords :
  forall (text : string),
    hasIntent text
    = existsb (fun keyword => Js.includes text keyword) shortKeywords.
Proof.
  intros text. unfold hasIntent, registrationKeywords, shortKeywords.
  cbn [existsb].
  pose proof (includes_trans text "create account" "account" eq_refl) as H1.
  pose proof (includes_trans text "m'inscrire" "inscrire" eq_refl) as H2.
  destruct (Js.includes text "create account");
    destruct (Js.includes text "m'inscrire");
    try rewrite (H1 eq_refl); try rewrite (H2 eq_refl);
    rewrite ?Bool.orb_true_r, ?Bool.orb_false_r, ?Bool.orb_false_l;
    reflexivity.
Qed.

Lemma toLowerCase_app (a b : string) :
  Js.toLowerCase (a ++ b) = (Js.toLowerCase a ++ Js.toLowerCase b)%string.
Proof. induction a; simpl; congruence. Qed.

(** X9. Detection is by containment after lower-casing and nothing else: a
    piece of text that lower-cases to a keyword triggers it wherever it
    stands in the last user message, inside a longer word or not, in any
    mix of cases. *)
Theorem X9_keyword_anywhere :
  forall (earlier : list Message) (pre s post : string),
    In (Js.toLowerCase s) registrationKeywords ->
    hasIntent (Js.toLowerCase (pre ++ s ++ post)) = true /\
    checkForRegistrationIntent false false false
      (earlier ++ [mkMessage "user" (pre ++ s ++ post)])%list = true.
Proof.
  intros earlier pre s post Hin.
  assert (H : hasIntent (Js.toLowerCase (pre ++ s ++ post)) = true).
  { apply hasIntent_spec.
    exists (Js.toLowerCase s), (Js.toLowerCase pre), (Js.toLowerCase post).
    split; auto. now rewrite !toLowerCase_app. }
  split; auto.
  unfold checkForRegistrationIntent. simpl.
  rewrite lastMessage_app. simpl. now rewrite H.
Qed.

Lemma X9_keyword_anywhere_witness :
  hasIntent (Js.toLowerCase ("Please UN" ++ "Subscribe" ++ " me")) = true.
Proof.
  apply (X9_keyword_anywhere [] "Please UN" "Subscribe" " me").
  vm_compute. auto.
Defined.

Lemma countChar_app (c : ascii) (a b : string) :
  countChar c (a ++ b) = (countChar c a + countChar c b)%nat.
Proof. induction a; simpl; auto. rewrite IHa. lia. Qed.

Lemma allChars_app (p : ascii -> bool) (a b : string) :
  allChars p (a ++ b) = allChars p a && allChars p b.
Proof.
  induction a; simpl; auto. rewrite IHa. now rewrite Bool.andb_assoc.
Qed.

Lemma length_app (a b : string) :
  String.length (a ++ b) = (String.length a + String.length b)%nat.
Proof. induction a; simpl; auto. Qed.

Lemma emailPart_facts (p : string) :
  emailPart p ->
  countChar "@" p = 0%nat /\
  allChars (fun c => negb (Js.isSpace c)) p = true /\
  (1 <= String.length p)%nat.
Proof.
  intros [Hne Hall]. split; [|split].
  - clear Hne. induction p as [|c p IH]; cbn [countChar allChars] in *; auto.
    apply Bool.andb_true_iff in Hall as [Hc Hall].
    unfold spaceOrAt in Hc. apply Bool.negb_true_iff in Hc.
    apply Bool.orb_false_iff in Hc as [_ Hc].
    rewrite Ascii.eqb_sym, Hc. cbn [Nat.add]. auto.
  - clear Hne. induction p as [|c p IH]; cbn [allChars] in *; auto.
    apply Bool.andb_true_iff in Hall as [Hc Hall].
    unfold spaceOrAt in Hc. apply Bool.negb_true_iff in Hc.
    apply Bool.orb_false_iff in Hc as [Hc _].
    rewrite Hc. cbn [negb andb]. auto.
  - destruct p; [congruence | simpl; lia].
Qed.

Lemma emailRegex_necessary (s : string) :
  Js.test emailRegex s = true ->
  countChar "@" s = 1%nat /\
  allChars (fun c => negb (Js.isSpace c)) s = true /\
  (5 <= String.length s)%nat.
Proof.
  intros H. apply emailRegex_shape in H
    as (a & b & c & Ha & Hb & Hc & ->).
  destruct (emailPart_facts a Ha) as (A1 & A2 & A3).
  destruct (emailPart_facts b Hb) as (B1 & B2 & B3).
  destruct (emailPart_facts c Hc) as (C1 & C2 & C3).
  rewrite !countChar_app, !allChars_app, !length_app.
  rewrite A1, B1, C1, A2, B2, C2. simpl. repeat split; auto. lia.
Qed.

(** X10. What the email pattern asks of every text it accepts: exactly one
    [@], no white space anywhere, and at least five characters. *)
Theorem X10_email_necessary :
  forall (s : string),
    Js.test emailRegex s = true ->
    countChar "@" s = 1%nat /\
    allChars (fun c => negb (Js.isSpace c)) s = true /\
    (5 <= String.length s)%nat.
Proof. exact emailRegex_necessary. Qed.

Lemma X10_email_necessary_witness :
  countChar "@" "a@b.co" = 1%nat /\ (5 <= String.length "a@b.co")%nat.
Proof.
  destruct (X10_email_necessary "a@b.co" eq_refl) as (H1 & _ & H3).
  split; assumption.
Defined.

(** X11. The send button (while the chat is not loading) and the Enter key
    choose between [handleEmailSubmit] and [handleSubmit] by
    [isWaitingForEmail], and [handleEmailSubmit] makes the same choice
    again: both always do what [handleEmailSubmit] does. Outside the email
    sub-mode, and for any text shorter than five characters (the empty
    text, for which the button is disabled but Enter is not), that is the
    chat's own submit; while the chat is loading the button stops the
    stream, and Shift+Enter does nothing. *)
Theorem X11_submit_routing :
  forall (w : World),
    inputOnKeyDown "Enter" false w = Handled (handleEmailSubmit w) /\
    inputOnKeyDown "Enter" true w = Ignored /\
    (isLoading (status (chat w)) = false ->
     sendButtonOnClick w = Handled (handleEmailSubmit w)) /\
    (isLoading (status (chat w)) = true -> sendButtonOnClick w = Stopped) /\
    (isWaitingForEmail (drawer w) = false ->
     handleEmailSubmit w = handleSubmit (input (chat w)) w) /\
    ((String.length (input (chat w)) < 5)%nat ->
     handleEmailSubmit w = handleSubmit (input (chat w)) w /\
     pendingSaves (calls (handleEmailSubmit w)) = pendingSaves (calls w)).
Proof.
  intros w.
  assert (Hn : isWaitingForEmail (drawer w) = false ->
               handleEmailSubmit w = handleSubmit (input (chat w)) w)
    by (intros H; unfold handleEmailSubmit; now rewrite H).
  assert (Hr : (if isWaitingForEmail (drawer w)
                then Handled (handleEmailSubmit w)
                else Handled (handleSubmit (input (chat w)) w))
               = Handled (handleEmailSubmit w))
    by (destruct (isWaitingForEmail (drawer w)) eqn:E; auto;
        now rewrite Hn).
  assert (Hs : (String.length (input (chat w)) < 5)%nat ->
               handleEmailSubmit w = handleSubmit (input (chat w)) w).
  { intros Hlt. unfold handleEmailSubmit.
    destruct (isWaitingForEmail (drawer w)); auto.
    destruct (Js.test emailRegex (input (chat w))) eqn:Et; auto.
    apply emailRegex_necessary in Et as (_ & _ & Hl). lia. }
  split; [exact Hr|]. split; [reflexivity|].
  split; [unfold sendButtonOnClick; intros ->; exact Hr|].
  split; [unfold sendButtonOnClick; now intros ->|].
  split; [exact Hn|].
  intros Hlt. split; [now apply Hs|]. now rewrite Hs.
Qed.

Lemma X11_submit_routing_witness :
  let w := run (firstn 3 lateEmailTrace)
               (mount 100000 (Some Ready) sampleChat) in
  isWaitingForEmail (drawer w) = true /\ sendButtonDisabled w = true /\
  inputOnKeyDown "Enter" false w = Handled (handleSubmit "" w).
Proof.
  intro w. split; [reflexivity|]. split; [reflexivity|].
  destruct (X11_submit_routing w) as (H1 & _ & _ & _ & _ & H2).
  destruct H2 as [H2 _]; [vm_compute; lia|].
  rewrite H1, H2. reflexivity.
Defined.

Lemma handle_ui_exclusive (now : Z) (e : Event) (w : World) :
  uiEnabled w e = true ->
  isWaitingForEmail (drawer w) && registrationSuccess (drawer w) = false ->
  isWaitingForEmail (drawer (handle now e w))
  && registrationSuccess (drawer (handle now e w)) = false.
Proof.
  intros He H.
  assert (Ht : forall b,
             isWaitingForEmail (toggleDrawer b now (drawer w))
             && registrationSuccess (toggleDrawer b now (drawer w)) = false).
  { intros b. unfold toggleDrawer, openDrawer.
    repeat break_if; simpl; auto. }
  destruct e; try discriminate He; simpl; auto.
  - unfold safeToggleDrawer. repeat break_if; simpl; auto.
  - simpl in He. unfold rendered, CustomDrawer.CustomDrawer,
      AskRegistrationDrawerContent in He.
    destruct (negb (drawerIsVisible w)); [discriminate|].
    destruct (registrationSuccess (drawer w)); [discriminate|].
    reflexivity.
  - assert (E : drawer (handleEmailSubmit w) = drawer w)
      by (unfold handleEmailSubmit; repeat break_if; reflexivity).
    now rewrite E.
  - destruct (memStr email (pendingSaves (calls w))); [|exact H].
    destruct ok; simpl; auto.
  - break_if; simpl; auto.
  - break_if; simpl; auto using Bool.andb_false_r.
  - break_if; simpl; auto.
  - break_if; simpl; auto.
Qed.

(** X12. Through the rendered interface the two sub-modes are never on
    together, whatever the user does: "Oui" exists only while the question is
    on the screen, hence with the success flag off, and the only write of
    the success flag comes with a close that leaves the email sub-mode. *)
Theorem X12_submodes_exclusive_in_the_interface :
  forall (now0 : Z) (cs0 : option ChatStatus) (c0 : Chat)
         (tr : list (Z * Event)) (w : World),
    runUi tr (mount now0 cs0 c0) = Some w ->
    isWaitingForEmail (drawer w) && registrationSuccess (drawer w) = false.
Proof.
  intros now0 cs0 c0 tr w.
  assert (G : forall w0,
             isWaitingForEmail (drawer w0) && registrationSuccess (drawer w0)
             = false ->
             runUi tr w0 = Some w ->
             isWaitingForEmail (drawer w) && registrationSuccess (drawer w)
             = false).
  { induction tr as [|[now e] tr IH]; intros w0 H0 Hr; simpl in Hr.
    - now injection Hr as <-.
    - destruct (uiEnabled w0 e) eqn:He; [|discriminate].
      apply (IH (step now e w0)); auto.
      destruct (step_submodes now e w0) as [-> ->].
      now apply handle_ui_exclusive. }
  apply G. now rewrite mount_eq.
Qed.

Lemma X12_submodes_exclusive_in_the_interface_witness :
  let w := run lateEmailTrace (mount 100000 (Some Ready) sampleChat) in
  registrationSuccess (drawer w) = true /\
  isWaitingForEmail (drawer w) && registrationSuccess (drawer w) = false.
Proof.
  intro w. split; [reflexivity|].
  apply (X12_submodes_exclusive_in_the_interface
           100000 (Some Ready) sampleChat lateEmailTrace w).
  vm_compute. reflexivity.
Defined.

Lemma commitRound_sameButLastOpenTime
      (now : Z) (cc : bool) (p1 p2 c1 c2 : World) :
  drawer p1 = drawer p2 ->
  sameButLastOpenTime c1 c2 ->
  sameButLastOpenTime (commitRound now cc p1 c1) (commitRound now cc p2 c2).
Proof.
  intros Hp (Hd & Hcs & Hc & Hca & Hcd & Ht).
  destruct c1 as [d1 cs1 ch1 [cd1 lo1 ct1] ca1].
  destruct c2 as [d2 cs2 ch2 [cd2 lo2 ct2] ca2].
  simpl in *. subst.
  unfold sameButLastOpenTime, commitRound, intentRuns, intentDepsChanged,
    cooldownEffect, armCooldown, logAutoOpen, busy.
  rewrite Hp. simpl.
  destruct (Bool.eqb (isOpen (drawer p2)) (isOpen d2)); simpl.
  - destruct (_ && _); simpl; auto 10.
  - destruct (negb (isOpen d2)); simpl;
      destruct (_ && _); simpl; auto 10.
Qed.

Lemma handle_sameButLastOpenTime (now : Z) (e : Event) (w1 w2 : World) :
  sameButLastOpenTime w1 w2 ->
  sameButLastOpenTime (handle now e w1) (handle now e w2).
Proof.
  intros (Hd & Hcs & Hc & Hca & Hcd & Ht).
  destruct w1 as [d1 cs1 ch1 [cd1 lo1 ct1] ca1].
  destruct w2 as [d2 cs2 ch2 [cd2 lo2 ct2] ca2].
  simpl in *. subst.
  unfold sameButLastOpenTime.
  destruct e; simpl;
    unfold safeToggleDrawer, handleEmailSubmit, handleEmailSubmitResume,
      handleSubmit, handleInputChange, handleRegistrationConfirm, busy;
    simpl; repeat break_if; simpl; auto 10.
Qed.

(** X13. [lastOpenTimeRef] is written and never read: two sessions that
    differ in it alone go through the same events to states that still
    differ in it alone. Nothing the drawer, the cooldown or the calls do
    depends on the instant it records. *)
Theorem X13_lastOpenTimeRef_is_never_read :
  forall (tr : list (Z * Event)) (w1 w2 : World),
    sameButLastOpenTime w1 w2 ->
    sameButLastOpenTime (run tr w1) (run tr w2).
Proof.
  induction tr as [|[now e] tr IH]; intros w1 w2 H; simpl; auto.
  apply IH. unfold step, commit.
  pose proof (handle_sameButLastOpenTime now e w1 w2 H) as Hh.
  destruct H as (Hd & _).
  apply commitRound_sameButLastOpenTime.
  - now destruct Hh.
  - apply commitRound_sameButLastOpenTime; auto.
Qed.

Lemma X13_lastOpenTimeRef_is_never_read_witness :
  sameButLastOpenTime
    (run lateEmailTrace (mount 100000 (Some Ready) sampleChat))
    (run lateEmailTrace
         (setRefs (mkRefs true 42 [110000])
                  (mount 100000 (Some Ready) sampleChat))).
Proof.
  apply X13_lastOpenTimeRef_is_never_read.
  vm_compute. repeat split; reflexivity.
Defined.

Lemma step_chatUpdate_drawer (now : Z) (cs : option ChatStatus)
      (st : ChatStatus) (msgs : list Message) (w : World) :
  drawer (step now (ChatUpdate cs st msgs) w)
  = if intentEffect st (cooldownRef (refs w)) (isOpen (drawer w))
                    (isAIWriting cs) msgs
    then effects now (drawer w) (openDrawer false true now (drawer w))
    else drawer w.
Proof.
  unfold step. rewrite commit_drawer. cbv zeta.
  cbn [isChatUpdate]. rewrite intentRuns_chatUpdate.
  cbn [handle drawer]. now rewrite effects_same.
Qed.

(** X14. A change of the chat signal never closes the drawer and never
    touches the sub-modes, the instant of the last close or the cooldown.
    An open drawer is left exactly as it is; when the assistant becomes busy
    the drawer is hidden, not closed, and a pending auto-close keeps its due
    time. *)
Theorem X14_chat_update_leaves_the_drawer :
  forall (w : World) (now : Z) (cs : option ChatStatus)
         (st : ChatStatus) (msgs : list Message),
    let w' := step now (ChatUpdate cs st msgs) w in
    isWaitingForEmail (drawer w') = isWaitingForEmail (drawer w) /\
    registrationSuccess (drawer w') = registrationSuccess (drawer w) /\
    lastCloseTimeRef (drawer w') = lastCloseTimeRef (drawer w) /\
    refs w' = refs w /\
    (isOpen (drawer w) = true -> drawer w' = drawer w) /\
    (isAIWriting cs = true -> drawer w' = drawer w /\ rendered w' = None).
Proof.
  intros w now cs st msgs w'.
  pose proof (step_chatUpdate_drawer now cs st msgs w) as Hd. fold w' in Hd.
  assert (Hr : refs w' = refs w).
  { unfold w', step. rewrite commit_refs. unfold cooldownEffect. simpl.
    now rewrite Bool.eqb_reflx. }
  assert (Hcs : chatStatus w' = cs).
  { unfold w', step. cbn [isChatUpdate].
    destruct (commit_chat now true w (handle now (ChatUpdate cs st msgs) w))
      as [_ E].
    rewrite E. reflexivity. }
  destruct (effects_flags now (drawer w)
              (openDrawer false true now (drawer w)))
    as ((_ & Hw & _ & Hs) & Hl & _).
  destruct (openDrawer_submodes false true now (drawer w)) as [Hw' Hs'].
  assert (Hl' : lastCloseTimeRef (openDrawer false true now (drawer w))
                = lastCloseTimeRef (drawer w))
    by (unfold openDrawer; repeat break_if; reflexivity).
  repeat split.
  - rewrite Hd. break_if; congruence.
  - rewrite Hd. break_if; congruence.
  - rewrite Hd. break_if; congruence.
  - exact Hr.
  - intros Ho. rewrite Hd, Ho. now rewrite intentEffect_open.
  - rewrite Hd, H. now rewrite intentEffect_busy.
  - unfold rendered, drawerIsVisible, busy. rewrite Hcs, H.
    now rewrite Bool.andb_false_r.
Qed.

Lemma X14_chat_update_leaves_the_drawer_witness :
  let w := step 120000 (ChatUpdate (Some Ready) Ready [signUpMessage])
                idleWorld in
  let w' := step 121000 (ChatUpdate (Some Streaming) Streaming [signUpMessage])
                 w in
  rendered w = Some Question /\ rendered w' = None /\
  autoCloseTimer (drawer w') = Some 128000.
Proof.
  intros w w'. split; [reflexivity|].
  destruct (X14_chat_update_leaves_the_drawer
              w 121000 (Some Streaming) Streaming [signUpMessage])
    as (_ & _ & _ & _ & _ & H).
  destruct (H eq_refl) as [H1 H2]. fold w' in H1, H2.
  split; [exact H2|]. rewrite H1. reflexivity.
Defined.
